(** * GrafanaGemmaAgent: the query-intent pipeline of [agent.py]

    A shallow embedding of the class [GrafanaGemmaAgent] and of the Python
    library functions its methods call, followed by the properties of the
    pipeline.

    Conventions of the model.
    - A Python [str] is a [string]; a character is a code point below 256
      (Latin-1), which is what [ascii] holds.  Case mapping and white space
      follow Python on that range.
    - A value decoded from JSON is a [json]; a Python [dict] is an
      association list with unique keys in insertion order.
    - A JSON document can name a character above 255 by an escape.
      [json.loads] decodes it to text that the model does not hold: the
      decoder tells such a document ([Json.beyond]) from one that is not
      JSON ([Json.malformed]), and the run, which the model cannot follow
      further, is stopped with a mark ([beyond_model]) that stands for no
      exception of Python.
    - A Python [float] is a primitive binary64 [float].
    - The language model and the Grafana HTTP endpoint are the [World]: a
      run asks the world and logs each call in the [State].
    - An exception is an [exn]; a computation that may raise returns a
      [Result].  The wording of the interpreter's own error messages is left
      to the world ([fault_text]); messages written in [agent.py] are
      computed.
    - Logging and the interpreter's resource limits (recursion depth, memory,
      the digit limit of [int]) are not modelled. *)

From Stdlib Require Import Bool Arith ZArith Lia List Ascii String.
From Stdlib Require Import DecimalString Floats.
Import ListNotations.

Set Warnings "-inexact-float,-register-all".

Local Open Scope string_scope.
Local Open Scope bool_scope.

(** ** Python [str] operations *)

Module PyStr.

(** [str.isspace] on one character: the white space that [str.strip]
    removes. *)
Definition isspace (c : ascii) : bool :=
  let n := N_of_ascii c in
  (((9 <=? n) && (n <=? 13)) || ((28 <=? n) && (n <=? 32))
   || (n =? 133) || (n =? 160))%N.

(** [str.lower] on one character. *)
Definition lower_char (c : ascii) : ascii :=
  let n := N_of_ascii c in
  if (((65 <=? n) && (n <=? 90))
      || ((192 <=? n) && (n <=? 222) && negb (n =? 215)))%N
  then ascii_of_N (n + 32) else c.

Fixpoint lower (s : string) : string :=
  match s with
  | EmptyString => EmptyString
  | String c s' => String (lower_char c) (lower s')
  end.

Fixpoint lstrip (s : string) : string :=
  match s with
  | EmptyString => EmptyString
  | String c s' => if isspace c then lstrip s' else s
  end.

Fixpoint rstrip (s : string) : string :=
  match s with
  | EmptyString => EmptyString
  | String c s' =>
      match rstrip s' with
      | EmptyString => if isspace c then EmptyString else String c EmptyString
      | r => String c r
      end
  end.

(** [s.strip()] *)
Definition strip (s : string) : string := rstrip (lstrip s).

(** [sub in s] *)
Fixpoint contains (sub s : string) : bool :=
  prefix sub s
  || match s with
     | EmptyString => false
     | String _ s' => contains sub s'
     end.

(** [s.replace(old, new)] for a non-empty [old]: [skip] counts the
    characters of a replaced occurrence still to be dropped. *)
Fixpoint replace_from (old new : string) (skip : nat) (s : string) : string :=
  match s with
  | EmptyString => EmptyString
  | String c s' =>
      match skip with
      | S k => replace_from old new k s'
      | O =>
          if prefix old s
          then new ++ replace_from old new (String.length old - 1) s'
          else String c (replace_from old new 0 s')
      end
  end.

(** [s.replace("", new)]: [new] goes before every character and at the
    end. *)
Fixpoint intersperse (new s : string) : string :=
  match s with
  | EmptyString => new
  | String c s' => new ++ String c (intersperse new s')
  end.

Definition replace (old new s : string) : string :=
  match old with
  | EmptyString => intersperse new s
  | _ => replace_from old new 0 s
  end.

(** The suffix of [s] that starts at the first [c]. *)
Fixpoint from_first (c : ascii) (s : string) : option string :=
  match s with
  | EmptyString => None
  | String a s' => if Ascii.eqb a c then Some s else from_first c s'
  end.

(** The prefix of [s] that ends at the last [c]. *)
Fixpoint upto_last (c : ascii) (s : string) : option string :=
  match s with
  | EmptyString => None
  | String a s' =>
      match upto_last c s' with
      | Some p => Some (String a p)
      | None => if Ascii.eqb a c then Some (String a EmptyString) else None
      end
  end.

(** [re.search(r'\{.*\}', text, re.DOTALL)], as the matched text
    ([group(0)]): the leftmost [{] that has a [}] after it, and, the star
    being greedy and the dot matching every character, the last [}]. *)
Definition re_search_braces (text : string) : option string :=
  match from_first "{" text with
  | None => None
  | Some t => upto_last "}" t
  end.

(** [c in s] for a character. *)
Fixpoint occurs (c : ascii) (s : string) : bool :=
  match s with
  | EmptyString => false
  | String a s' => Ascii.eqb a c || occurs c s'
  end.

Fixpoint repeat (c : ascii) (n : nat) : string :=
  match n with
  | O => EmptyString
  | S k => String c (repeat c k)
  end.

(** [str(z)] for an [int]. *)
Definition of_Z (z : Z) : string := NilEmpty.string_of_int (Z.to_int z).

End PyStr.

(** ** Python [float] conversions *)

Module PyFloat.

Local Open Scope Z_scope.

(** The outcome of rounding a positive rational to binary64: the value is
    [m * 2 ^ e]. *)
Inductive rounded :=
| RZero
| RFinite (m : positive) (e : Z)
| ROverflow.

(** [n / d] with the exponent [e] taken out: numerator and denominator of
    [n / (d * 2 ^ e)]. *)
Definition scaled (n d e : Z) : Z * Z :=
  if 0 <=? e then (n, d * 2 ^ e) else (n * 2 ^ (- e), d).

(** The binary64 number nearest to [n / d] for [0 < d], ties to even: 53
    bits of mantissa, fewer below [2 ^ -1022]. *)
Definition nearest (n d : Z) : rounded :=
  if n <=? 0 then RZero
  else
    let e0 := Z.log2 n - Z.log2 d - 52 in
    let q0 := let '(a, b) := scaled n d e0 in a / b in
    let e1 := if q0 <? 2 ^ 52 then e0 - 1 else e0 in
    let e := Z.max e1 (-1074) in
    let '(a, b) := scaled n d e in
    let q := a / b in
    let r := a mod b in
    let q' :=
      match 2 * r ?= b with
      | Lt => q
      | Gt => q + 1
      | Eq => if Z.even q then q else q + 1
      end in
    match q' with
    | Zpos m =>
        if (971 <? e) || ((e =? 971) && (2 ^ 53 <=? q'))
        then ROverflow else RFinite m e
    | _ => RZero
    end.

Definition of_rounded (neg : bool) (r : rounded) : float :=
  match r with
  | RZero => if neg then neg_zero else zero
  | RFinite m e => SF2Prim (S754_finite neg m e)
  | ROverflow => if neg then neg_infinity else infinity
  end.

(** The float that a decimal literal denotes: [digits * 10 ^ exp10],
    negated when [neg]. *)
Definition of_decimal (neg : bool) (digits exp10 : Z) : float :=
  of_rounded neg
    (nearest (digits * 10 ^ Z.max exp10 0) (10 ^ Z.max (- exp10) 0)).

(** [float(z)] for an [int]: [None] is [OverflowError]. *)
Definition of_int (z : Z) : option float :=
  match nearest (Z.abs z) 1 with
  | ROverflow => None
  | r => Some (of_rounded (z <? 0) r)
  end.

(** *** Reading decimal text *)

Definition is_digit (c : ascii) : bool :=
  let n := N_of_ascii c in ((48 <=? n) && (n <=? 57))%N.

Definition digit_value (c : ascii) : Z := Z.of_N (N_of_ascii c) - 48.

(** The leading digits of [s] and what follows them. *)
Fixpoint span_digits (s : string) : string * string :=
  match s with
  | String c s' =>
      if is_digit c
      then let '(ds, rest) := span_digits s' in (String c ds, rest)
      else (EmptyString, s)
  | EmptyString => (EmptyString, EmptyString)
  end.

Fixpoint digits_value (acc : Z) (ds : string) : Z :=
  match ds with
  | EmptyString => acc
  | String c ds' => digits_value (10 * acc + digit_value c) ds'
  end.

(** An optional sign: whether it is a minus, and the rest. *)
Definition take_sign (s : string) : bool * string :=
  match s with
  | String "-" s' => (true, s')
  | String "+" s' => (false, s')
  | _ => (false, s)
  end.

(** An exponent part [e|E [+|-] digits] at the head of [s]: its value and
    the rest; [s] itself with exponent 0 when there is none. *)
Definition take_exponent (s : string) : Z * string :=
  match s with
  | String c s' =>
      if Ascii.eqb c "e" || Ascii.eqb c "E" then
        let '(neg, s1) := take_sign s' in
        match span_digits s1 with
        | (EmptyString, _) => (0, s)
        | (ds, rest) =>
            let v := digits_value 0 ds in
            ((if neg then - v else v), rest)
        end
      else (0, s)
  | EmptyString => (0, s)
  end.

(** Underscores in a numeric literal: each one between two digits. *)
Fixpoint underscores_ok (prev : ascii) (s : string) : bool :=
  match s with
  | EmptyString => negb (Ascii.eqb prev "_")
  | String c s' =>
      (if Ascii.eqb c "_" then is_digit prev
       else negb (Ascii.eqb prev "_") || is_digit c)
      && underscores_ok c s'
  end.

Fixpoint drop_underscores (s : string) : string :=
  match s with
  | EmptyString => EmptyString
  | String c s' =>
      if Ascii.eqb c "_" then drop_underscores s'
      else String c (drop_underscores s')
  end.

(** The white space [float] allows around a number: that of [str.strip]
    but for the four separators 28 to 31. *)
Definition is_blank (c : ascii) : bool :=
  let n := N_of_ascii c in
  (((9 <=? n) && (n <=? 13)) || (n =? 32) || (n =? 133) || (n =? 160))%N.

Fixpoint ltrim (s : string) : string :=
  match s with
  | EmptyString => EmptyString
  | String c s' => if is_blank c then ltrim s' else s
  end.

Fixpoint rtrim (s : string) : string :=
  match s with
  | EmptyString => EmptyString
  | String c s' =>
      match rtrim s' with
      | EmptyString => if is_blank c then EmptyString else String c EmptyString
      | r => String c r
      end
  end.

(** [float(s)] for a [str]: [None] is [ValueError]. *)
Definition of_string (s : string) : option float :=
  let t := rtrim (ltrim s) in
  if negb (underscores_ok "000" t) then None
  else
    let '(neg, u) := take_sign (drop_underscores t) in
    let l := PyStr.lower u in
    if String.eqb l "inf" || String.eqb l "infinity"
    then Some (if neg then neg_infinity else infinity)
    else if String.eqb l "nan" then Some nan
    else
      let '(ip, r1) := span_digits u in
      let '(fp, r2) :=
        match r1 with
        | String "." r => span_digits r
        | _ => (EmptyString, r1)
        end in
      match ip, fp with
      | EmptyString, EmptyString => None
      | _, _ =>
          match take_exponent r2 with
          | (ex, EmptyString) =>
              Some (of_decimal neg (digits_value 0 (ip ++ fp))
                      (ex - Z.of_nat (String.length fp)))
          | _ => None
          end
      end.

(** *** [repr] of a float: the shortest decimal that reads back as the
    same float, the closest one among those. *)

Definition ceil_div (a b : Z) : Z := (a + b - 1) / b.

Definition round_div (a b : Z) : Z :=
  let q := a / b in
  match 2 * (a mod b) ?= b with
  | Lt => q
  | Gt => q + 1
  | Eq => if Z.even q then q else q + 1
  end.

(** The decimals [c * 10 ^ k] between [lo * 2 ^ e] and [hi * 2 ^ e] (the
    ends included when [incl]), for the largest [k <= k0] that has one:
    the [c] closest to [v * 2 ^ e], and [k]. *)
Fixpoint shortest (fuel : nat) (k lo v hi e : Z) (incl : bool) : Z * Z :=
  let den := 2 ^ Z.max (- e) 0 * 10 ^ Z.max k 0 in
  let num x := x * 2 ^ Z.max e 0 * 10 ^ Z.max (- k) 0 in
  let cmin := if incl then ceil_div (num lo) den else num lo / den + 1 in
  let cmax := if incl then num hi / den else ceil_div (num hi) den - 1 in
  if (cmin <=? cmax) && (1 <=? cmax)
  then (Z.max (Z.max cmin 1) (Z.min (round_div (num v) den) cmax), k)
  else
    match fuel with
    | O => (0, 0)
    | S f => shortest f (k - 1) lo v hi e incl
    end.

Definition repr_finite (neg : bool) (m : positive) (e : Z) : string :=
  let boundary := (Zpos m =? 2 ^ 52) && (-1074 <? e) in
  let v := 4 * Zpos m in
  let lo := if boundary then v - 1 else v - 2 in
  let hi := v + 2 in
  let k0 := ((Z.log2 hi + 1 + (e - 2)) * 30103) / 100000 + 1 in
  let '(c, k) := shortest 30 k0 lo v hi (e - 2) (Z.even (Zpos m)) in
  let ds := PyStr.of_Z c in
  let n := Z.of_nat (String.length ds) in
  let decpt := n + k in
  ((if neg then "-" else "")
   ++ (if (-4 <? decpt) && (decpt <=? 16) then
         if decpt <=? 0 then
           "0." ++ PyStr.repeat "0" (Z.to_nat (- decpt)) ++ ds
         else if n <=? decpt then
           ds ++ PyStr.repeat "0" (Z.to_nat (decpt - n)) ++ ".0"
         else
           substring 0 (Z.to_nat decpt) ds ++ "."
           ++ substring (Z.to_nat decpt) (Z.to_nat (n - decpt)) ds
       else
         let ex := decpt - 1 in
         substring 0 1 ds
         ++ (if n =? 1 then "" else "." ++ substring 1 (Z.to_nat (n - 1)) ds)
         ++ "e" ++ (if ex <? 0 then "-" else "+")
         ++ (if Z.abs ex <? 10 then "0" else "") ++ PyStr.of_Z (Z.abs ex))).

(** [repr(f)], which is also [str(f)]. *)
Definition repr (f : float) : string :=
  match Prim2SF f with
  | S754_nan => "nan"
  | S754_zero s => if s then "-0.0" else "0.0"
  | S754_infinity s => if s then "-inf" else "inf"
  | S754_finite s m e => repr_finite s m e
  end.

(** [max(a, b)] as Python computes it: the first argument unless the
    second is greater. *)
Definition max (a b : float) : float := if PrimFloat.ltb a b then b else a.

End PyFloat.

(** ** Decoded JSON values and [dict] *)

(** A [dict] with [str] keys, in insertion order; the keys are distinct. *)
Definition dict (A : Type) : Type := list (string * A).

Module Dict.
Section Ops.
Context {A : Type}.

(** [d.get(k)], [None] when the key is absent. *)
Fixpoint get (k : string) (d : dict A) : option A :=
  match d with
  | [] => None
  | (k', v) :: d' => if String.eqb k' k then Some v else get k d'
  end.

(** [k in d] *)
Definition mem (k : string) (d : dict A) : bool :=
  match get k d with Some _ => true | None => false end.

(** [d[k] = v]: an existing key keeps its place, a new one goes last. *)
Fixpoint set (k : string) (v : A) (d : dict A) : dict A :=
  match d with
  | [] => [(k, v)]
  | (k', v') :: d' =>
      if String.eqb k' k then (k, v) :: d' else (k', v') :: set k v d'
  end.

(** [list(d.keys())] *)
Definition keys (d : dict A) : list string := map fst d.
End Ops.
End Dict.

(** What [json.loads] returns: [None], [bool], [int], [float], [str],
    [list] and [dict]. *)
Inductive json :=
| JNull
| JBool (b : bool)
| JInt (z : Z)
| JFloat (f : float)
| JStr (s : string)
| JList (l : list json)
| JDict (d : dict json).

(** The double quote. *)
Definition dquote : ascii := "034"%char.

Module Py.

(** [bool(v)] *)
Definition truthy (v : json) : bool :=
  match v with
  | JNull => false
  | JBool b => b
  | JInt z => negb (z =? 0)%Z
  | JFloat f => negb (PrimFloat.eqb f zero)
  | JStr s => negb (String.eqb s "")
  | JList l => match l with [] => false | _ => true end
  | JDict d => match d with [] => false | _ => true end
  end.

(** [v is None] *)
Definition is_none (v : json) : bool :=
  match v with JNull => true | _ => false end.

(** [v == s] for a [str] literal [s]. *)
Definition eq_str (v : json) (s : string) : bool :=
  match v with JStr t => String.eqb t s | _ => false end.

(** [d.get(k)] and [d.get(k, default)] on a decoded object. *)
Definition get (k : string) (d : dict json) : json :=
  match Dict.get k d with Some v => v | None => JNull end.

Definition get_default (k : string) (default : json) (d : dict json) : json :=
  match Dict.get k d with Some v => v | None => default end.

(** [str.isprintable] on one character. *)
Definition printable (c : ascii) : bool :=
  let n := N_of_ascii c in
  negb ((n <? 32) || ((127 <=? n) && (n <=? 160)) || (n =? 173))%N.

Definition hex_digit (n : N) : ascii :=
  if (n <? 10)%N then ascii_of_N (48 + n) else ascii_of_N (87 + n).

Definition repr_char (quote c : ascii) : string :=
  if Ascii.eqb c quote || Ascii.eqb c "\" then String "\" (String c "")
  else if Ascii.eqb c "009" then "\t"
  else if Ascii.eqb c "010" then "\n"
  else if Ascii.eqb c "013" then "\r"
  else if printable c then String c ""
  else
    let n := N_of_ascii c in
    String "\" (String "x" (String (hex_digit (n / 16)) (String (hex_digit (n mod 16)) ""))).

Fixpoint repr_chars (quote : ascii) (s : string) : string :=
  match s with
  | EmptyString => EmptyString
  | String c s' => repr_char quote c ++ repr_chars quote s'
  end.

(** [repr(s)] for a [str]. *)
Definition repr_str (s : string) : string :=
  let quote :=
    if PyStr.occurs "'" s && negb (PyStr.occurs dquote s)
    then dquote else "'"%char in
  String quote (repr_chars quote s ++ String quote "").

(** [repr(v)] *)
Fixpoint repr (v : json) : string :=
  match v with
  | JNull => "None"
  | JBool b => if b then "True" else "False"
  | JInt z => PyStr.of_Z z
  | JFloat f => PyFloat.repr f
  | JStr s => repr_str s
  | JList l =>
      "["
      ++ (fix items (l : list json) : string :=
            match l with
            | [] => ""
            | x :: l' =>
                repr x ++ match l' with [] => "" | _ => ", " ++ items l' end
            end) l
      ++ "]"
  | JDict d =>
      "{"
      ++ (fix items (d : dict json) : string :=
            match d with
            | [] => ""
            | (k, x) :: d' =>
                repr_str k ++ ": " ++ repr x
                ++ match d' with [] => "" | _ => ", " ++ items d' end
            end) d
      ++ "}"
  end.

(** [str(v)], which is what an f-string field [{v}] renders. *)
Definition str (v : json) : string :=
  match v with
  | JStr s => s
  | _ => repr v
  end.

End Py.

(** ** [json.loads]

    The decoder of CPython's [json] module with its default settings: white
    space is blank, tab, line feed and carriage return; [NaN], [Infinity]
    and [-Infinity] are accepted; a repeated key keeps its last value; a
    control character inside a string is an error.

    An escape [\uXXXX] above [\u00ff] is well-formed and [json.loads]
    decodes it, to a character that the text of this model does not hold.
    The scanner reads such an escape as the decoder does and records that
    the value is beyond the model: [Json.scan] tells a document that is not
    JSON ([None], the [JSONDecodeError] of Python) from one that decodes,
    and for one that decodes whether its value is one of the model.
    [Json.loads] is the decoded value when it is one of the model,
    [Json.malformed] says that decoding raises, [Json.beyond] that it
    gives a value the model does not hold. *)

Module Json.

Definition is_ws (c : ascii) : bool :=
  Ascii.eqb c " " || Ascii.eqb c "009" || Ascii.eqb c "010" || Ascii.eqb c "013".

Fixpoint skip_ws (s : string) : string :=
  match s with
  | String c s' => if is_ws c then skip_ws s' else s
  | EmptyString => EmptyString
  end.

Fixpoint drop (n : nat) (s : string) : string :=
  match n, s with
  | S k, String _ s' => drop k s'
  | _, _ => s
  end.

Definition hex_value (c : ascii) : option N :=
  let n := N_of_ascii c in
  if ((48 <=? n) && (n <=? 57))%N then Some (n - 48)%N
  else if ((97 <=? n) && (n <=? 102))%N then Some (n - 87)%N
  else if ((65 <=? n) && (n <=? 70))%N then Some (n - 55)%N
  else None.

Definition hex4 (a b c d : ascii) : option N :=
  match hex_value a, hex_value b, hex_value c, hex_value d with
  | Some x, Some y, Some z, Some w => Some (((x * 16 + y) * 16 + z) * 16 + w)%N
  | _, _, _, _ => None
  end.

(** The character an escape letter stands for. *)
Definition unescape (e : ascii) : option ascii :=
  if Ascii.eqb e dquote then Some dquote
  else if Ascii.eqb e "\" then Some "\"%char
  else if Ascii.eqb e "/" then Some "/"%char
  else if Ascii.eqb e "b" then Some "008"%char
  else if Ascii.eqb e "f" then Some "012"%char
  else if Ascii.eqb e "n" then Some "010"%char
  else if Ascii.eqb e "r" then Some "013"%char
  else if Ascii.eqb e "t" then Some "009"%char
  else None.

(** What a scan gives: the value read, the text after it, and whether
    the value is one of the model ([false] once an escape above [\u00ff]
    has been read). *)
Definition scanned (A : Type) : Type := option (A * string * bool).

Definition cons_char (c : ascii) (r : scanned string) : scanned string :=
  match r with
  | Some (t, rest, ok) => Some (String c t, rest, ok)
  | None => None
  end.

(** The character of an escape above [\u00ff] is not one of [ascii]: a
    question mark holds its place and the content is marked. *)
Definition cons_beyond (r : scanned string) : scanned string :=
  match r with
  | Some (t, rest, _) => Some (String "?" t, rest, false)
  | None => None
  end.

(** A string literal after its opening quote: its content and what
    follows the closing quote. *)
Fixpoint scanstring (s : string) : scanned string :=
  match s with
  | EmptyString => None
  | String c s' =>
      if Ascii.eqb c dquote then Some (EmptyString, s', true)
      else if Ascii.eqb c "\" then
        match s' with
        | String e s'' =>
            if Ascii.eqb e "u" then
              match s'' with
              | String h1 (String h2 (String h3 (String h4 rest))) =>
                  match hex4 h1 h2 h3 h4 with
                  | Some n =>
                      if (n <? 256)%N
                      then cons_char (ascii_of_N n) (scanstring rest)
                      else cons_beyond (scanstring rest)
                  | None => None
                  end
              | _ => None
              end
            else
              match unescape e with
              | Some ch => cons_char ch (scanstring s'')
              | None => None
              end
        | EmptyString => None
        end
      else if (N_of_ascii c <? 32)%N then None
      else cons_char c (scanstring s')
  end.

(** A number at the head of [s]: an optional minus; a zero, or digits
    that start with a non-zero one; optionally a point and digits;
    optionally an exponent, [e] or [E], an optional sign and digits.
    Without fraction and exponent it is an [int], else a [float]. *)
Definition match_number (s : string) : option (json * string) :=
  let '(neg, s1) :=
    match s with
    | String "-" r => (true, r)
    | _ => (false, s)
    end in
  let int_part :=
    match s1 with
    | String c r =>
        if Ascii.eqb c "0" then Some ("0", r)
        else if PyFloat.is_digit c then Some (PyFloat.span_digits s1)
        else None
    | EmptyString => None
    end in
  match int_part with
  | None => None
  | Some (ip, r1) =>
      let '(fp, r2) :=
        match r1 with
        | String "." r =>
            match PyFloat.span_digits r with
            | (EmptyString, _) => (EmptyString, r1)
            | found => found
            end
        | _ => (EmptyString, r1)
        end in
      let '(ex, r3) := PyFloat.take_exponent r2 in
      if String.eqb fp "" && (String.length r3 =? String.length r2)%nat then
        let v := PyFloat.digits_value 0 ip in
        Some (JInt (if neg then - v else v)%Z, r3)
      else
        Some (JFloat (PyFloat.of_decimal neg (PyFloat.digits_value 0 (ip ++ fp))
                        (ex - Z.of_nat (String.length fp))), r3)
  end.

Definition literal (word : string) (v : json) (s : string)
  : option (json * string) :=
  if prefix word s then Some (v, drop (String.length word) s) else None.

Definition or_else {A : Type} (a b : option A) : option A :=
  match a with Some _ => a | None => b end.

(** A number or a constant holds no text. *)
Definition plain (r : option (json * string)) : scanned json :=
  match r with
  | Some (v, rest) => Some (v, rest, true)
  | None => None
  end.

Section Containers.
(** The value scanner one nesting level down. *)
Variable scan : string -> scanned json.

(** The items of an array, [s] at a value; [fuel] bounds their number. *)
Fixpoint array_items (fuel : nat) (acc : list json) (ok : bool) (s : string)
  : scanned json :=
  match fuel with
  | O => None
  | S f =>
      match scan s with
      | None => None
      | Some (v, r, okv) =>
          match skip_ws r with
          | String c r' =>
              if Ascii.eqb c "]"
              then Some (JList (rev (v :: acc)), r', ok && okv)
              else if Ascii.eqb c ","
              then array_items f (v :: acc) (ok && okv) (skip_ws r')
              else None
          | EmptyString => None
          end
      end
  end.

(** The members of an object, [s] at the opening quote of a key. *)
Fixpoint object_members (fuel : nat) (acc : dict json) (ok : bool) (s : string)
  : scanned json :=
  match fuel with
  | O => None
  | S f =>
      match s with
      | String q s1 =>
          if Ascii.eqb q dquote then
            match scanstring s1 with
            | None => None
            | Some (key, r, okk) =>
                match skip_ws r with
                | String c r1 =>
                    if Ascii.eqb c ":" then
                      match scan (skip_ws r1) with
                      | None => None
                      | Some (v, r2, okv) =>
                          let acc' := Dict.set key v acc in
                          let ok' := ok && okk && okv in
                          match skip_ws r2 with
                          | String c' r3 =>
                              if Ascii.eqb c' "}" then Some (JDict acc', r3, ok')
                              else if Ascii.eqb c' ","
                              then object_members f acc' ok' (skip_ws r3)
                              else None
                          | EmptyString => None
                          end
                      end
                    else None
                | EmptyString => None
                end
            end
          else None
      | EmptyString => None
      end
  end.
End Containers.

(** One value at the head of [s]; [fuel] bounds the nesting depth. *)
Fixpoint scan_once (fuel : nat) (s : string) : scanned json :=
  match fuel with
  | O => None
  | S f =>
      match s with
      | EmptyString => None
      | String c s' =>
          if Ascii.eqb c dquote then
            match scanstring s' with
            | Some (t, r, ok) => Some (JStr t, r, ok)
            | None => None
            end
          else if Ascii.eqb c "{" then
            match skip_ws s' with
            | String c' r =>
                if Ascii.eqb c' "}" then Some (JDict [], r, true)
                else object_members (scan_once f) (String.length s') [] true
                       (skip_ws s')
            | EmptyString => None
            end
          else if Ascii.eqb c "[" then
            match skip_ws s' with
            | String c' r =>
                if Ascii.eqb c' "]" then Some (JList [], r, true)
                else array_items (scan_once f) (String.length s') [] true
                       (skip_ws s')
            | EmptyString => None
            end
          else
            plain
              (or_else (literal "null" JNull s)
                 (or_else (literal "true" (JBool true) s)
                    (or_else (literal "false" (JBool false) s)
                       (or_else (match_number s)
                          (or_else (literal "NaN" (JFloat nan) s)
                             (or_else (literal "Infinity" (JFloat infinity) s)
                                (literal "-Infinity" (JFloat neg_infinity) s)))))))
      end
  end.

(** The whole document: [None] is the [JSONDecodeError] of [json.loads];
    otherwise the value read and whether it is one of the model. *)
Definition scan (s : string) : option (json * bool) :=
  match scan_once (S (String.length s)) (skip_ws s) with
  | Some (v, r, ok) =>
      match skip_ws r with
      | EmptyString => Some (v, ok)
      | _ => None
      end
  | None => None
  end.

(** [json.loads(s)], when it returns a value of the model. *)
Definition loads (s : string) : option json :=
  match scan s with
  | Some (v, true) => Some v
  | _ => None
  end.

(** [json.loads(s)] raises [JSONDecodeError]. *)
Definition malformed (s : string) : bool :=
  match scan s with
  | None => true
  | Some _ => false
  end.

(** [json.loads(s)] returns a value with a character above [\u00ff]. *)
Definition beyond (s : string) : bool :=
  match scan s with
  | Some (_, false) => true
  | _ => false
  end.

End Json.

(** Text with each apostrophe turned into a double quote, to write JSON
    documents down. *)
Fixpoint dq (s : string) : string :=
  match s with
  | EmptyString => EmptyString
  | String c s' => String (if Ascii.eqb c "'" then dquote else c) (dq s')
  end.

(** ** Exceptions and results *)

Inductive exn_class :=
| ValueError
| TypeError
| KeyError
| IndexError
| AttributeError
| OverflowError
| JSONDecodeError
| ExternalError (name : string).

(** The failures the interpreter and the library raise on their own. *)
Inductive fault :=
| JSONSyntax (doc : string)              (* json.loads(doc) *)
| Unhashable (v : json)                  (* v in d, d[v] for a list or dict v *)
| NoSuchKey (k : json)                   (* d[k] *)
| IndexOutOfRange                        (* l[0] on an empty list *)
| BadOperand (v : json)                  (* v - 0.2 *)
| IntTooLarge (z : Z)                    (* float(z) *)
| NoAttribute (v : json) (name : string) (* v.name *)
| NotIterable (v : json)                 (* for x in v, a, b = v *)
| UnpackMismatch (n : nat)               (* a, b = v with n items *)
| BadFloat (v : json).                   (* float(v) *)

Inductive exn :=
| Exc (cls : exn_class) (msg : string)
| Fault (f : fault).


(** Where [json.loads] decodes a document to text with a character above
    [\u00ff], the run goes on in Python with a value that the model does
    not hold, and the model cannot follow it.  The model stops such a run
    with this mark.  It is a mark of the model, no exception of Python:
    nothing below reads it as what the code does. *)
Definition beyond_model (doc : string) : exn :=
  Exc (ExternalError "BeyondModel") doc.

Inductive Result (A : Type) :=
| Ok (a : A)
| Raise (e : exn).
Arguments Ok {A} a.
Arguments Raise {A} e.

(** ** The schema, the world and the state of a run *)

(** One entry of [schema.json]: [description] and [example_query] are
    required, [unit] is optional. *)
Record MetricInfo := {
  info_description : string;
  info_unit : option string;
  info_example_query : string
}.

(** [self.schema]: metric name to its entry, in the order of the file. *)
Definition Schema : Type := dict MetricInfo.

(** What a prompt tells the language model: the data its f-string renders. *)
Inductive prompt :=
| ParsePrompt (metrics_info : list (string * string * string)) (user_query : string)
| ClosestPrompt (user_query : string) (available : list string)
| AnswerPrompt (intent_text : json) (metric_description : string)
    (aggregation : string) (value : float) (value_unit : string)
    (time_range : json).

(** The response of [requests.get]. *)
Record Response := {
  raise_for_status : Result unit;
  json_body : Result json
}.

Record World := {
  (** [self.model.generate_content(prompt).text] *)
  generate_content : prompt -> Result string;
  (** [requests.get(url, headers, params, timeout=10)]: the URL, the
      [Authorization] header and the [query] parameter. *)
  requests_get : string -> string -> string -> Result Response;
  (** [str(e)] for an exception the interpreter raised. *)
  fault_text : fault -> string
}.

(** The module-level settings read from the environment. *)
Record Config := {
  GRAFANA_URL : string;
  GRAFANA_API_KEY : option string
}.

(** One record of [execute_promql]'s result. *)
Record QueryResult := {
  result_labels : json;
  result_timestamp : json;
  result_value : float
}.

(** One entry of [self.conversation_history]. *)
Record Turn := {
  turn_query : string;
  turn_intent : dict json;
  turn_promql : string;
  turn_results : list QueryResult;
  turn_answer : string;
  turn_model_used : string
}.

Inductive call :=
| Asked (p : prompt)
| Fetched (url authorization query : string).

(** What a run changes: the calls made to the world, latest first, and the
    conversation history, oldest first. *)
Record State := {
  calls : list call;
  conversation_history : list Turn
}.

(** ** Computations that call the world and may raise *)

Definition M (A : Type) : Type := State -> Result A * State.

Definition ret {A : Type} (a : A) : M A := fun st => (Ok a, st).

Definition raise {A : Type} (e : exn) : M A := fun st => (Raise e, st).

Definition bind {A B : Type} (c : M A) (k : A -> M B) : M B :=
  fun st =>
    match c st with
    | (Ok a, st') => k a st'
    | (Raise e, st') => (Raise e, st')
    end.

Definition lift {A : Type} (r : Result A) : M A := fun st => (r, st).

Definition bindR {A B : Type} (r : Result A) (k : A -> Result B) : Result B :=
  match r with
  | Ok a => k a
  | Raise e => Raise e
  end.

Declare Scope py_scope.
Delimit Scope py_scope with py.
Notation "x <- c ;; k" := (bind c (fun x => k))
  (at level 61, c at next level, right associativity) : py_scope.
Notation "x <~ r ;; k" := (bindR r (fun x => k))
  (at level 61, r at next level, right associativity) : py_scope.
Local Open Scope py_scope.

Definition log_call (c : call) (st : State) : State :=
  {| calls := c :: calls st; conversation_history := conversation_history st |}.

Definition append_turn (t : Turn) : M unit :=
  fun st =>
    (Ok tt, {| calls := calls st;
               conversation_history := conversation_history st ++ [t] |}).

(** ** Operations on decoded values that may raise *)

Module PyOps.

(** [v in d] for a dict with [str] keys. *)
Definition contains_key {A : Type} (v : json) (d : dict A) : Result bool :=
  match v with
  | JList _ | JDict _ => Raise (Fault (Unhashable v))
  | JStr s => Ok (Dict.mem s d)
  | _ => Ok false
  end.

(** [d[v]] *)
Definition getitem {A : Type} (d : dict A) (v : json) : Result A :=
  match v with
  | JList _ | JDict _ => Raise (Fault (Unhashable v))
  | JStr s =>
      match Dict.get s d with
      | Some a => Ok a
      | None => Raise (Fault (NoSuchKey v))
      end
  | _ => Raise (Fault (NoSuchKey v))
  end.

(** [float(v)] *)
Definition to_float (v : json) : Result float :=
  match v with
  | JFloat f => Ok f
  | JInt z =>
      match PyFloat.of_int z with
      | Some f => Ok f
      | None => Raise (Fault (IntTooLarge z))
      end
  | JBool b => Ok (if b then one else zero)
  | JStr s =>
      match PyFloat.of_string s with
      | Some f => Ok f
      | None => Raise (Fault (BadFloat v))
      end
  | _ => Raise (Fault (BadFloat v))
  end.

(** The float a number is turned into when it meets a float in
    arithmetic. *)
Definition as_float (v : json) : Result float :=
  match v with
  | JFloat f => Ok f
  | JInt z =>
      match PyFloat.of_int z with
      | Some f => Ok f
      | None => Raise (Fault (IntTooLarge z))
      end
  | JBool b => Ok (if b then one else zero)
  | _ => Raise (Fault (BadOperand v))
  end.

(** [v - c] for a float [c]. *)
Definition sub_float (v : json) (c : float) : Result float :=
  f <~ as_float v ;; Ok (f - c)%float.

(** [v.get(k, default)]: only a dict has [get]. *)
Definition get (v : json) (k : string) (default : json) : Result json :=
  match v with
  | JDict d => Ok (Py.get_default k default d)
  | _ => Raise (Fault (NoAttribute v "get"))
  end.

Fixpoint chars (s : string) : list json :=
  match s with
  | EmptyString => []
  | String c s' => JStr (String c EmptyString) :: chars s'
  end.

(** The items [for x in v] goes through. *)
Definition iter (v : json) : Result (list json) :=
  match v with
  | JList l => Ok l
  | JDict d => Ok (map JStr (Dict.keys d))
  | JStr s => Ok (chars s)
  | _ => Raise (Fault (NotIterable v))
  end.

(** [a, b = v] *)
Definition unpack2 (v : json) : Result (json * json) :=
  items <~ iter v ;;
  match items with
  | [a; b] => Ok (a, b)
  | _ => Raise (Fault (UnpackMismatch (List.length items)))
  end.

(** [v.capitalize()]: only a [str] has it; the result is the text itself,
    its capital initial being left to the rendering of the prompt. *)
Definition capitalize (v : json) : Result string :=
  match v with
  | JStr s => Ok s
  | _ => Raise (Fault (NoAttribute v "capitalize"))
  end.

End PyOps.

(** ** class [GrafanaGemmaAgent] *)

Definition no_json_message : string := "No valid JSON found in Gemma response".

Definition no_data_message : string :=
  "No data found for this metric and time range.".

Definition not_understood_message : string :=
  "I couldn't understand which metric you're asking about. Please try asking about CPU usage, memory usage, GPU utilization, or system uptime.".

Definition error_prefix : string :=
  "I encountered an error while processing your query: ".

(** [ValueError(f"Metric '{metric}' not in schema")] *)
Definition unknown_metric (metric : json) : exn :=
  Exc ValueError ("Metric '" ++ Py.str metric ++ "' not in schema").

Section Agent.

Variable w : World.
Variable cfg : Config.
(** [self.schema] *)
Variable schema : Schema.

(** [str(e)] *)
Definition str_exn (e : exn) : string :=
  match e with
  | Exc _ msg => msg
  | Fault f => fault_text w f
  end.

(** [self.model.generate_content(prompt).text] *)
Definition ask (p : prompt) : M string :=
  fun st => (generate_content w p, log_call (Asked p) st).

Definition find_closest_metric (user_query : string) : M string :=
  text <- ask (ClosestPrompt user_query (Dict.keys schema)) ;;
  let metric_name := PyStr.lower (PyStr.strip text) in
  if Dict.mem metric_name schema then ret metric_name
  else
    match
      find (fun metric => PyStr.contains (PyStr.lower metric) (PyStr.lower text))
        (Dict.keys schema)
    with
    | Some metric => ret metric
    | None =>
        match Dict.keys schema with
        | first :: _ => ret first
        | [] => raise (Fault IndexOutOfRange)
        end
    end.

(** The body of [parse_user_query] once [json.loads] has returned
    [intent]. *)
Definition validate_intent (user_query : string) (intent : dict json)
  : M (dict json) :=
  known <- lift (PyOps.contains_key (Py.get "metric" intent) schema) ;;
  if negb known && negb (Py.is_none (Py.get "metric" intent)) then
    metric <- find_closest_metric user_query ;;
    let intent1 := Dict.set "metric" (JStr metric) intent in
    lowered <- lift (PyOps.sub_float
                       (Py.get_default "confidence" (JFloat 0.5) intent1) 0.2) ;;
    ret (Dict.set "confidence" (JFloat (PyFloat.max 0.3 lowered)) intent1)
  else ret intent.

(** The [metrics_info] lines of [parse_user_query]: name, description and
    unit of every metric. *)
Definition metrics_info : list (string * string * string) :=
  map (fun '(metric, info) =>
         (metric, info_description info,
          match info_unit info with Some u => u | None => "N/A" end))
    schema.

Definition parse_user_query (user_query : string) : M (dict json) :=
  text <- ask (ParsePrompt metrics_info user_query) ;;
  let response_text := PyStr.strip text in
  match PyStr.re_search_braces response_text with
  | Some json_str =>
      match Json.loads json_str with
      | Some (JDict intent) => validate_intent user_query intent
      | Some v => raise (Fault (NoAttribute v "get"))
      | None =>
          if Json.malformed json_str then raise (Fault (JSONSyntax json_str))
          else raise (beyond_model json_str)
      end
  | None => raise (Exc ValueError no_json_message)
  end.

(** The aggregation wrapper of [build_promql]. *)
Definition wrap_aggregation (agg : json) (base_query : string) : string :=
  if Py.eq_str agg "max" then "max(" ++ base_query ++ ")"
  else if Py.eq_str agg "min" then "min(" ++ base_query ++ ")"
  else if Py.eq_str agg "sum" then "sum(" ++ base_query ++ ")"
  else if Py.eq_str agg "avg" then "avg(" ++ base_query ++ ")"
  else base_query.

(** The time-range step of [build_promql]. *)
Definition substitute_time_range (time_range : json) (base_query : string)
  : string :=
  if PyStr.contains "[5m]" base_query && negb (Py.eq_str time_range "5m")
  then PyStr.replace "[5m]" ("[" ++ Py.str time_range ++ "]") base_query
  else base_query.

Definition build_promql (intent : dict json) : Result string :=
  let metric := Py.get "metric" intent in
  let agg := Py.get_default "aggregation" (JStr "avg") intent in
  let time_range := Py.get_default "time_range" (JStr "5m") intent in
  if negb (Py.truthy metric) then Raise (unknown_metric metric)
  else
    known <~ PyOps.contains_key metric schema ;;
    if negb known then Raise (unknown_metric metric)
    else
      info <~ PyOps.getitem schema metric ;;
      let base_query := info_example_query info in
      let base_query := substitute_time_range time_range base_query in
      Ok (wrap_aggregation agg base_query).

(** The loop of [execute_promql] over the series of the response. *)
Fixpoint collect_results (series : list json) (results : list QueryResult)
  : Result (list QueryResult) :=
  match series with
  | [] => Ok results
  | result :: rest =>
      metric_labels <~ PyOps.get result "metric" (JDict []) ;;
      value <~ PyOps.get result "value" (JList []) ;;
      if Py.truthy value then
        pair <~ PyOps.unpack2 value ;;
        metric_value <~ PyOps.to_float (snd pair) ;;
        collect_results rest
          (results ++ [{| result_labels := metric_labels;
                          result_timestamp := fst pair;
                          result_value := metric_value |}])
      else collect_results rest results
  end.

Definition execute_promql (promql : string) (datasource_id : Z)
  : M (list QueryResult) :=
  match GRAFANA_API_KEY cfg with
  | None => raise (Exc ValueError "Grafana API key not configured")
  | Some key =>
      if String.eqb key "" then
        raise (Exc ValueError "Grafana API key not configured")
      else
        let url :=
          GRAFANA_URL cfg ++ "/api/datasources/proxy/"
          ++ PyStr.of_Z datasource_id ++ "/api/v1/query" in
        let authorization := "Bearer " ++ key in
        fun st =>
          let st' := log_call (Fetched url authorization promql) st in
          (response <~ requests_get w url authorization promql ;;
           _ <~ raise_for_status response ;;
           data <~ json_body response ;;
           inner <~ PyOps.get data "data" (JDict []) ;;
           series <~ PyOps.get inner "result" (JList []) ;;
           items <~ PyOps.iter series ;;
           collect_results items [],
           st')
  end.

Definition format_answer (intent : dict json) (metrics : list QueryResult)
  : M string :=
  match metrics with
  | [] => ret no_data_message
  | first :: _ =>
      metric_name <- lift (PyOps.getitem intent (JStr "metric")) ;;
      metric_info <- lift (PyOps.getitem schema metric_name) ;;
      let value := result_value first in
      let unit := match info_unit metric_info with Some u => u | None => "" end in
      let value := if String.eqb unit "%" then (value * 100)%float else value in
      agg <- lift (PyOps.capitalize
                     (Py.get_default "aggregation" (JStr "avg") intent)) ;;
      intent_text <- lift (PyOps.getitem intent (JStr "intent")) ;;
      text <- ask (AnswerPrompt intent_text (info_description metric_info) agg
                     value unit
                     (Py.get_default "time_range" (JStr "5m") intent)) ;;
      ret (PyStr.strip text)
  end.

(** The [try] block of [process_query]. *)
Definition process_query_try (user_query : string) (datasource_id : Z)
  : M string :=
  intent <- parse_user_query user_query ;;
  if negb (Py.truthy (Py.get "metric" intent)) then ret not_understood_message
  else
    promql <- lift (build_promql intent) ;;
    metrics <- execute_promql promql datasource_id ;;
    answer <- format_answer intent metrics ;;
    _ <- append_turn {| turn_query := user_query;
                        turn_intent := intent;
                        turn_promql := promql;
                        turn_results := metrics;
                        turn_answer := answer;
                        turn_model_used := "gemma" |} ;;
    ret answer.

(** [process_query]: the [try] block under its [except Exception]. *)
Definition process_query (user_query : string) (datasource_id : Z)
  : State -> string * State :=
  fun st =>
    match process_query_try user_query datasource_id st with
    | (Ok answer, st') => (answer, st')
    | (Raise e, st') => (error_prefix ++ str_exn e, st')
    end.

End Agent.

(** ** The sentence of the [except] clause, and the specification's wording *)

Definition error_sentence (w : World) (e : exn) : string :=
  error_prefix ++ str_exn w e.

(** The resolution order in the words of the specification: (1) the trimmed
    response matched exactly, but for case, against a schema key; (2) the
    first key that occurs in the response, but for case; (3) the first key
    of the schema. *)
Definition spec_resolution (schema : Schema) (response : string) : option string :=
  match
    find (fun key => String.eqb (PyStr.lower key) (PyStr.lower (PyStr.strip response)))
      (Dict.keys schema)
  with
  | Some key => Some key
  | None =>
      match
        find (fun key => PyStr.contains (PyStr.lower key) (PyStr.lower response))
          (Dict.keys schema)
      with
      | Some key => Some key
      | None => hd_error (Dict.keys schema)
      end
  end.

(** The non-empty prefixes of a text, the shortest first. *)
Fixpoint prefixes (s : string) : list string :=
  match s with
  | EmptyString => []
  | String c s' => String c EmptyString :: map (String c) (prefixes s')
  end.

(** The non-empty suffixes of a text, the longest first. *)
Fixpoint suffixes (s : string) : list string :=
  match s with
  | EmptyString => []
  | String _ s' => s :: suffixes s'
  end.

(** A text that is a well-formed JSON object. *)
Definition is_json_object (s : string) : bool :=
  match PyStr.from_first "{" s, Json.loads s with
  | Some t, Some (JDict _) => String.eqb t s
  | _, _ => false
  end.

(** The first well-formed JSON object substring of a text, in the words of
    the specification: the leftmost start and, from there, the shortest
    substring that is a JSON object. *)
Definition first_json_object (text : string) : option string :=
  find is_json_object (flat_map prefixes (suffixes text)).

(** ** Example data *)

Definition initial_state : State :=
  {| calls := []; conversation_history := [] |}.

(** A world for examples: the language model answers [reply] to every
    prompt, the backend answers [body], and error texts are empty. *)
Definition constant_world (reply : string) (body : json) : World :=
  {| generate_content := fun _ => Ok reply;
     requests_get := fun _ _ _ =>
       Ok {| raise_for_status := Ok tt; json_body := Ok body |};
     fault_text := fun _ => "" |}.

(** A world whose language model is out of service. *)
Definition failing_world : World :=
  {| generate_content := fun _ => Raise (Exc (ExternalError "ResourceExhausted") "quota exceeded");
     requests_get := fun _ _ _ => Raise (Exc (ExternalError "ConnectionError") "connection refused");
     fault_text := fun _ => "" |}.

(** A world that answers each kind of prompt with its own text. *)
Definition scripted_world (intent_reply metric_reply answer_reply : string)
    (body : json) : World :=
  {| generate_content := fun p =>
       match p with
       | ParsePrompt _ _ => Ok intent_reply
       | ClosestPrompt _ _ => Ok metric_reply
       | AnswerPrompt _ _ _ _ _ _ => Ok answer_reply
       end;
     requests_get := fun _ _ _ =>
       Ok {| raise_for_status := Ok tt; json_body := Ok body |};
     fault_text := fun _ => "" |}.

(** A Prometheus instant-query response with one series of value 0.42. *)
Definition one_series : json :=
  JDict [("status", JStr "success");
         ("data",
          JDict [("resultType", JStr "vector");
                 ("result",
                  JList [JDict [("metric", JDict [("job", JStr "node")]);
                                ("value", JList [JInt 1700000000; JStr "0.42"])]])])].

Definition key_config : Config :=
  {| GRAFANA_URL := "http://localhost:3000"; GRAFANA_API_KEY := Some "secret" |}.

Definition no_key_config : Config :=
  {| GRAFANA_URL := "http://localhost:3000"; GRAFANA_API_KEY := None |}.

Definition cpu_info : MetricInfo :=
  {| info_description := "CPU usage";
     info_unit := Some "%";
     info_example_query := "rate(cpu[5m])" |}.

Definition demo_schema : Schema := [("cpu_usage", cpu_info)].

Definition cpu_schema : Schema :=
  [("CPU", {| info_description := "CPU load";
              info_unit := None;
              info_example_query := "node_load1" |});
   ("CPU_Usage", cpu_info)].

Definition foo_schema : Schema :=
  [("foo", {| info_description := "Foo";
              info_unit := None;
              info_example_query := "foo[5m]" |})].

Definition two_objects : string :=
  dq "{'metric': 'cpu_usage'} or {'metric': 'memory_usage'}".

(** ** Start-up: [load_schema], [setup_gemma_model], [__init__] and
    [initialize_agent] *)

(** What can stop the construction of the agent. *)
Inductive startup_error :=
| ReadFailed (e : exn)           (* open() or read(): FileNotFoundError, other OSError *)
| SchemaNotJSON (doc : string)   (* json.load: JSONDecodeError *)
| SchemaBeyondModel (doc : string) (* no error of Python: the mark of a schema
                                    file whose text is beyond the model *)
| NotSubscriptable (v : json)    (* v["metrics"] for a v that is no dict: TypeError *)
| NoMetricsKey                   (* KeyError: 'metrics' *)
| NoLength (v : json)            (* len(v): TypeError *)
| AllModelsFailed.               (* Exception("All Gemma model initialization attempts failed") *)

(** The world at start-up: the files, and the SDK's model constructor. *)
Record StartupWorld := {
  (** [open(path, "r")] and the reading of the whole file *)
  read_text : string -> Result string;
  (** [genai.GenerativeModel(model_name)] *)
  GenerativeModel : string -> Result unit
}.

Inductive startup_event :=
| OpenedFile (path : string)
| TriedModel (model_name : string).

(** The attempts made so far, latest first. *)
Definition StartupLog : Type := list startup_event.

(** [len(v)]: a [str], a [list] and a [dict] have a length. *)
Definition py_len (v : json) : option nat :=
  match v with
  | JStr s => Some (String.length s)
  | JList l => Some (List.length l)
  | JDict d => Some (List.length d)
  | _ => None
  end.

(** The models [setup_gemma_model] tries, in its order. *)
Definition gemma_models : list string :=
  ["gemma-3-27b-it"; "gemma-3-12b-it"; "gemma-3-4b-it"; "gemma-3-1b-it"].

(** What [__init__] leaves in [self]. *)
Record AgentObject := {
  self_schema : json;
  self_model : string;
  self_conversation_history : list Turn
}.

Section Startup.

Variable sw : StartupWorld.

(** [load_schema]: the file is read and decoded, its ["metrics"] entry
    becomes [self.schema], and the log line takes its length.  Both
    [except] clauses log and raise again. *)
Definition load_schema (schema_file : string) (log : StartupLog)
  : (startup_error + json) * StartupLog :=
  let log' := OpenedFile schema_file :: log in
  (match read_text sw schema_file with
   | Raise e => inl (ReadFailed e)
   | Ok doc =>
       match Json.loads doc with
       | None =>
           if Json.malformed doc then inl (SchemaNotJSON doc)
           else inl (SchemaBeyondModel doc)
       | Some (JDict top) =>
           match Dict.get "metrics" top with
           | None => inl NoMetricsKey
           | Some schema =>
               match py_len schema with
               | Some _ => inr schema
               | None => inl (NoLength schema)
               end
           end
       | Some v => inl (NotSubscriptable v)
       end
   end,
   log').

(** The [for] loop of [setup_gemma_model] over the model names left: the
    first model that the SDK constructs ends it, and its [else] branch
    raises. *)
Fixpoint try_models (names : list string) (log : StartupLog)
  : (startup_error + string) * StartupLog :=
  match names with
  | [] => (inl AllModelsFailed, log)
  | model_name :: rest =>
      match GenerativeModel sw model_name with
      | Ok _ => (inr model_name, TriedModel model_name :: log)
      | Raise _ => try_models rest (TriedModel model_name :: log)
      end
  end.

Definition setup_gemma_model (log : StartupLog)
  : (startup_error + string) * StartupLog :=
  try_models gemma_models log.

(** [GrafanaGemmaAgent(schema_file)] *)
Definition init_agent (schema_file : string) (log : StartupLog)
  : (startup_error + AgentObject) * StartupLog :=
  match load_schema schema_file log with
  | (inl e, log1) => (inl e, log1)
  | (inr schema, log1) =>
      match setup_gemma_model log1 with
      | (inl e, log2) => (inl e, log2)
      | (inr model, log2) =>
          (inr {| self_schema := schema;
                  self_model := model;
                  self_conversation_history := [] |},
           log2)
      end
  end.

(** [initialize_agent] of [app.py]: its result, and the global [agent]
    after it. *)
Definition initialize_agent (agent : option AgentObject) (log : StartupLog)
  : (bool * option AgentObject) * StartupLog :=
  match init_agent "schema.json" log with
  | (inr created, log') => ((true, Some created), log')
  | (inl _, log') => ((false, agent), log')
  end.

End Startup.

(** ** The front ends: [handle_query] and [health_check] of [app.py], and
    the interactive loop of [main] *)

(** [v.strip()]: only a [str] has it. *)
Definition strip_of (v : json) : Result string :=
  match v with
  | JStr s => Ok (PyStr.strip s)
  | _ => Raise (Fault (NoAttribute v "strip"))
  end.

(** A response: the object given to [jsonify], and the status code. *)
Definition HttpReply : Type := (dict json * Z)%type.

Section FrontEnds.

Variable w : World.
Variable cfg : Config.

(** The [try] block of [handle_query].  [agent] is the global, an agent
    being given by its schema; [body] is [request.get_json()]. *)
Definition handle_query_try (agent : option Schema) (body : Result json)
  : M HttpReply :=
  data <- lift body ;;
  raw <- lift (PyOps.get data "query" (JStr "")) ;;
  user_query <- lift (strip_of raw) ;;
  if String.eqb user_query "" then
    ret ([("error", JStr "No query provided")], 400%Z)
  else
    match agent with
    | None => ret ([("error", JStr "Agent not initialized")], 500%Z)
    | Some schema =>
        fun st =>
          let '(answer, st') := process_query w cfg schema user_query 1 st in
          (Ok ([("query", JStr user_query); ("answer", JStr answer)], 200%Z), st')
    end.

Definition handle_query (agent : option Schema) (body : Result json)
  : State -> HttpReply * State :=
  fun st =>
    match handle_query_try agent body st with
    | (Ok reply, st') => (reply, st')
    | (Raise e, st') =>
        (([("error", JStr ("Error: " ++ str_exn w e))], 500%Z), st')
    end.

Definition health_check (agent : option Schema) : HttpReply :=
  ([("status", JStr "healthy");
    ("agent_ready", JBool (match agent with Some _ => true | None => false end))],
   200%Z).

(** The words that end the interactive loop of [main]. *)
Definition is_quit_word (user_input : string) : bool :=
  existsb (String.eqb (PyStr.lower user_input)) ["quit"; "exit"; "q"].

(** The [while True] loop of [main] over the lines that [input] returns:
    what it prints, and whether it left by [break] ([false]: the input
    ended first, and [input] raised). *)
Fixpoint interactive_loop (schema : Schema) (lines : list string) (st : State)
  : (list string * bool) * State :=
  match lines with
  | [] => (([], false), st)
  | line :: rest =>
      let user_input := PyStr.strip line in
      if is_quit_word user_input then (([], true), st)
      else if String.eqb user_input "" then interactive_loop schema rest st
      else
        let '(answer, st1) := process_query w cfg schema user_input 1 st in
        let '((printed, by_break), st2) := interactive_loop schema rest st1 in
        ((("Gemma: " ++ answer) :: printed, by_break), st2)
  end.

End FrontEnds.

(** ** Counting the calls of a run *)

Definition is_asked (c : call) : bool :=
  match c with Asked _ => true | Fetched _ _ _ => false end.

Definition is_fetched (c : call) : bool :=
  match c with Asked _ => false | Fetched _ _ _ => true end.

(** One series of the response as the loop of [execute_promql] reads it
    into a result: an object whose ["value"] is truthy and unpacks into a
    timestamp and a sample that [float] accepts; its ["metric"], or an
    empty object, gives the labels. *)
Definition reads_as (series : json) (r : QueryResult) : Prop :=
  exists d sample,
    series = JDict d
    /\ Py.truthy (Py.get_default "value" (JList []) d) = true
    /\ PyOps.unpack2 (Py.get_default "value" (JList []) d)
       = Ok (result_timestamp r, sample)
    /\ PyOps.to_float sample = Ok (result_value r)
    /\ result_labels r = Py.get_default "metric" (JDict []) d.

(** One series that the loop passes over: an object whose ["value"] is
    absent or falsy. *)
Definition skipped (series : json) : Prop :=
  exists d,
    series = JDict d
    /\ Py.truthy (Py.get_default "value" (JList []) d) = false.

(** The results that go with a list of series: one for each series read,
    in order, none for a series passed over. *)
Inductive vector_results : list json -> list QueryResult -> Prop :=
| vector_nil : vector_results [] []
| vector_read series r rest rs :
    reads_as series r -> vector_results rest rs ->
    vector_results (series :: rest) (r :: rs)
| vector_skip series rest rs :
    skipped series -> vector_results rest rs ->
    vector_results (series :: rest) rs.

(** ** Further definitions for the statements and their examples *)

(** What [lstrip] returns is empty or starts with a character that is not
    white space, and [rstrip] keeps such a start. *)
Definition starts_clean (s : string) : Prop :=
  match s with
  | EmptyString => True
  | String a _ => PyStr.isspace a = false
  end.

Definition full_intent : dict json :=
  [("metric", JStr "cpu_usage"); ("aggregation", JStr "avg");
   ("time_range", JStr "5m"); ("intent", JStr "get current CPU usage");
   ("confidence", JFloat 0.9)].

Definition one_result : QueryResult :=
  {| result_labels := JDict []; result_timestamp := JInt 1700000000;
     result_value := 0.42 |}.

Definition schema_text : string :=
  dq "{'metrics': {'cpu_usage': {'description': 'CPU usage', 'unit': '%', 'example_query': 'rate(cpu[5m])'}}}".

(** A start-up world with one file, in which the largest model is not
    available. *)
Definition demo_startup : StartupWorld :=
  {| read_text := fun path =>
       if String.eqb path "schema.json" then Ok schema_text
       else Raise (Exc (ExternalError "FileNotFoundError") path);
     GenerativeModel := fun model_name =>
       if String.eqb model_name "gemma-3-27b-it"
       then Raise (Exc (ExternalError "NotFound") model_name)
       else Ok tt |}.

(** The status [handle_query] answers with, read off the request and the
    global alone. *)
Definition expected_status (agent : option Schema) (body : Result json) : Z :=
  match body with
  | Ok (JDict d) =>
      match Py.get_default "query" (JStr "") d with
      | JStr q =>
          if String.eqb (PyStr.strip q) "" then 400
          else match agent with Some _ => 200 | None => 500 end
      | _ => 500
      end
  | _ => 500
  end%Z.

(** * Properties *)

(** ** Text *)

Lemma append_assoc (a b c : string) : (a ++ b) ++ c = a ++ (b ++ c).
Proof.
  induction a as [|x a IH]; simpl; [reflexivity|].
  now rewrite IH.
Qed.

Lemma append_nil_r (a : string) : a ++ "" = a.
Proof.
  induction a as [|x a IH]; simpl; [reflexivity|].
  now rewrite IH.
Qed.

Lemma occurs_append (c : ascii) (a b : string) :
  PyStr.occurs c (a ++ b) = PyStr.occurs c a || PyStr.occurs c b.
Proof.
  induction a as [|x a IH]; simpl; [reflexivity|].
  now rewrite IH, orb_assoc.
Qed.

(** [from_first] splits the text at the first occurrence. *)
Lemma from_first_some (c : ascii) (s t : string) :
  PyStr.from_first c s = Some t ->
  exists pre r, s = pre ++ String c r /\ t = String c r
                /\ PyStr.occurs c pre = false.
Proof.
  induction s as [|a s IH]; simpl; [discriminate|].
  destruct (Ascii.eqb a c) eqn:E.
  - intros [= <-]. apply Ascii.eqb_eq in E. subst a.
    now exists "", s.
  - intros H. destruct (IH H) as (pre & r & -> & -> & Hpre).
    exists (String a pre), r. simpl. now rewrite E, Hpre.
Qed.

Lemma from_first_none (c : ascii) (s : string) :
  PyStr.from_first c s = None <-> PyStr.occurs c s = false.
Proof.
  induction s as [|a s IH]; simpl; [tauto|].
  destruct (Ascii.eqb a c); simpl; [split; discriminate | exact IH].
Qed.

Lemma from_first_append (c : ascii) (pre r : string) :
  PyStr.occurs c pre = false ->
  PyStr.from_first c (pre ++ String c r) = Some (String c r).
Proof.
  induction pre as [|a pre IH]; simpl.
  - now rewrite Ascii.eqb_refl.
  - destruct (Ascii.eqb a c); simpl; [discriminate | exact IH].
Qed.

Lemma upto_last_none (c : ascii) (s : string) :
  PyStr.upto_last c s = None <-> PyStr.occurs c s = false.
Proof.
  induction s as [|a s IH]; simpl; [tauto|].
  destruct (PyStr.upto_last c s) as [p|].
  - split; [discriminate|].
    intros H. apply orb_false_elim in H as [_ H].
    apply IH in H. discriminate.
  - destruct IH as [IH _]. rewrite (IH eq_refl), orb_false_r.
    destruct (Ascii.eqb a c); split; congruence.
Qed.

Lemma upto_last_append (c : ascii) (x post : string) :
  PyStr.occurs c post = false ->
  PyStr.upto_last c (x ++ String c post) = Some (x ++ String c "").
Proof.
  intros Hpost. induction x as [|a x IH]; simpl.
  - apply upto_last_none in Hpost. now rewrite Hpost, Ascii.eqb_refl.
  - now rewrite IH.
Qed.

(** [upto_last] splits the text after the last occurrence. *)
Lemma upto_last_some (c : ascii) (s p : string) :
  PyStr.upto_last c s = Some p ->
  exists x post, s = x ++ String c post /\ p = x ++ String c ""
                 /\ PyStr.occurs c post = false.
Proof.
  revert p. induction s as [|a s IH]; simpl; [discriminate|].
  intros p. destruct (PyStr.upto_last c s) as [q|] eqn:E.
  - intros [= <-]. destruct (IH q eq_refl) as (x & post & -> & -> & Hpost).
    now exists (String a x), post.
  - destruct (Ascii.eqb a c) eqn:Eac; [|discriminate].
    intros [= <-]. apply Ascii.eqb_eq in Eac. subst a.
    apply upto_last_none in E. now exists "", s.
Qed.

(** The match of [\{.*\}]: from the first [{] to the last [}]. *)
Lemma re_search_braces_some (text s : string) :
  PyStr.re_search_braces text = Some s <->
  exists pre body post,
    text = pre ++ String "{" (body ++ String "}" post)
    /\ s = String "{" (body ++ String "}" "")
    /\ PyStr.occurs "{" pre = false
    /\ PyStr.occurs "}" post = false.
Proof.
  unfold PyStr.re_search_braces. split.
  - destruct (PyStr.from_first "{" text) as [t|] eqn:E; [|discriminate].
    intros H.
    destruct (from_first_some _ _ _ E) as (pre & r & -> & -> & Hpre).
    destruct (upto_last_some _ _ _ H) as (x & post & Hx & -> & Hpost).
    destruct x as [|a x]; simpl in Hx; [discriminate|].
    injection Hx as <- ->.
    now exists pre, x, post.
  - intros (pre & body & post & -> & -> & Hpre & Hpost).
    rewrite (from_first_append _ _ _ Hpre).
    exact (upto_last_append "}" (String "{" body) post Hpost).
Qed.

Lemma from_first_after (c : ascii) (a r : string) :
  exists x, PyStr.from_first c (a ++ String c r) = Some (String c (x ++ r)).
Proof.
  induction a as [|y a IH]; simpl.
  - exists "". now rewrite Ascii.eqb_refl.
  - destruct (Ascii.eqb y c) eqn:E; [|exact IH].
    apply Ascii.eqb_eq in E. subst y.
    exists (a ++ String c ""). rewrite append_assoc. reflexivity.
Qed.

Lemma re_search_braces_none (text : string) :
  PyStr.re_search_braces text = None <->
  ~ exists a b c, text = a ++ String "{" (b ++ String "}" c).
Proof.
  unfold PyStr.re_search_braces. split.
  - intros H (a & b & c & ->).
    destruct (from_first_after "{" a (b ++ String "}" c)) as [x Hx].
    rewrite Hx in H. apply upto_last_none in H.
    simpl in H. rewrite !occurs_append in H. simpl in H.
    rewrite ?orb_true_r in H. discriminate.
  - intros H.
    destruct (PyStr.from_first "{" text) as [t|] eqn:E; [|reflexivity].
    destruct (PyStr.upto_last "}" t) as [p|] eqn:Ep; [|reflexivity].
    exfalso. apply H.
    destruct (from_first_some _ _ _ E) as (pre & r & -> & -> & Hpre).
    destruct (upto_last_some _ _ _ Ep) as (x & post & Hx & -> & Hpost).
    destruct x as [|a x]; simpl in Hx; [discriminate|].
    injection Hx as <- ->.
    now exists pre, x, post.
Qed.

Lemma from_first_lstrip (c : ascii) (s : string) :
  PyStr.isspace c = false ->
  PyStr.from_first c (PyStr.lstrip s) = PyStr.from_first c s.
Proof.
  intros Hc. induction s as [|a s IH]; simpl; [reflexivity|].
  destruct (PyStr.isspace a) eqn:Ea; [|reflexivity].
  destruct (Ascii.eqb a c) eqn:E; [|exact IH].
  apply Ascii.eqb_eq in E. congruence.
Qed.

Lemma rstrip_cons (a : ascii) (s : string) :
  PyStr.rstrip (String a s) =
  match PyStr.rstrip s with
  | EmptyString => if PyStr.isspace a then EmptyString else String a EmptyString
  | r => String a r
  end.
Proof. reflexivity. Qed.

Lemma upto_last_rstrip (c : ascii) (s : string) :
  PyStr.isspace c = false ->
  PyStr.upto_last c (PyStr.rstrip s) = PyStr.upto_last c s.
Proof.
  intros Hc. induction s as [|a s IH]; [reflexivity|].
  rewrite rstrip_cons. cbn [PyStr.upto_last]. rewrite <- IH.
  destruct (PyStr.rstrip s) as [|b r]; [|reflexivity].
  simpl. destruct (PyStr.isspace a) eqn:Ea; simpl; [|reflexivity].
  destruct (Ascii.eqb a c) eqn:E; [|reflexivity].
  apply Ascii.eqb_eq in E. congruence.
Qed.

Lemma from_first_rstrip (c : ascii) (s : string) :
  PyStr.isspace c = false ->
  PyStr.from_first c (PyStr.rstrip s) =
  option_map PyStr.rstrip (PyStr.from_first c s).
Proof.
  intros Hc. induction s as [|a s IH]; [reflexivity|].
  cbn [PyStr.from_first]. destruct (Ascii.eqb a c) eqn:E.
  - apply Ascii.eqb_eq in E. subst a. cbn [option_map].
    rewrite rstrip_cons. rewrite Hc.
    destruct (PyStr.rstrip s); simpl; now rewrite Ascii.eqb_refl.
  - rewrite <- IH. rewrite rstrip_cons.
    destruct (PyStr.rstrip s) as [|b r]; simpl.
    + destruct (PyStr.isspace a); simpl; [reflexivity | now rewrite E].
    + now rewrite E.
Qed.

(** Trimming the text does not move the match. *)
Lemma re_search_braces_strip (text : string) :
  PyStr.re_search_braces (PyStr.strip text) = PyStr.re_search_braces text.
Proof.
  unfold PyStr.re_search_braces, PyStr.strip.
  rewrite from_first_rstrip by reflexivity.
  rewrite from_first_lstrip by reflexivity.
  destruct (PyStr.from_first "{" text) as [t|]; simpl; [|reflexivity].
  now apply upto_last_rstrip.
Qed.

(** ** Dictionaries *)

Lemma get_set_same {A : Type} (k : string) (v : A) (d : dict A) :
  Dict.get k (Dict.set k v d) = Some v.
Proof.
  induction d as [|[k' v'] d IH]; simpl.
  - now rewrite String.eqb_refl.
  - destruct (String.eqb k' k) eqn:E; simpl.
    + now rewrite String.eqb_refl.
    + now rewrite E.
Qed.

Lemma get_set_other {A : Type} (k k' : string) (v : A) (d : dict A) :
  k <> k' -> Dict.get k (Dict.set k' v d) = Dict.get k d.
Proof.
  intros Hk. induction d as [|[k0 v0] d IH]; simpl.
  - destruct (String.eqb k' k) eqn:E; [|reflexivity].
    apply String.eqb_eq in E. congruence.
  - destruct (String.eqb k0 k') eqn:E; simpl.
    + apply String.eqb_eq in E. subst k0.
      destruct (String.eqb k' k) eqn:E'; [|reflexivity].
      apply String.eqb_eq in E'. congruence.
    + now rewrite IH.
Qed.

Lemma get_in_keys {A : Type} (k : string) (v : A) (d : dict A) :
  Dict.get k d = Some v -> In k (Dict.keys d).
Proof.
  induction d as [|[k' v'] d IH]; simpl; [discriminate|].
  destruct (String.eqb k' k) eqn:E.
  - apply String.eqb_eq in E. now left.
  - intros H. right. exact (IH H).
Qed.

Lemma mem_in_keys {A : Type} (k : string) (d : dict A) :
  Dict.mem k d = true -> In k (Dict.keys d).
Proof.
  unfold Dict.mem. destruct (Dict.get k d) eqn:E; [|discriminate].
  intros _. exact (get_in_keys _ _ _ E).
Qed.

Lemma in_keys_mem {A : Type} (k : string) (d : dict A) :
  In k (Dict.keys d) -> Dict.mem k d = true.
Proof.
  unfold Dict.mem. induction d as [|[k' v'] d IH]; simpl; [tauto|].
  destruct (String.eqb k' k) eqn:E; [reflexivity|].
  intros [H|H]; [|exact (IH H)].
  apply String.eqb_neq in E. congruence.
Qed.

(** ** The Metric Resolver *)

(** What [find_closest_metric] returns once the model has answered. *)
Lemma find_closest_metric_answered
    (w : World) (schema : Schema) (user_query text : string) (st : State) :
  generate_content w (ClosestPrompt user_query (Dict.keys schema)) = Ok text ->
  find_closest_metric w schema user_query st =
  ((if Dict.mem (PyStr.lower (PyStr.strip text)) schema
    then Ok (PyStr.lower (PyStr.strip text))
    else
      match
        find (fun metric => PyStr.contains (PyStr.lower metric) (PyStr.lower text))
          (Dict.keys schema)
      with
      | Some metric => Ok metric
      | None =>
          match Dict.keys schema with
          | first :: _ => Ok first
          | [] => Raise (Fault IndexOutOfRange)
          end
      end),
   log_call (Asked (ClosestPrompt user_query (Dict.keys schema))) st).
Proof.
  intros H. unfold find_closest_metric, bind, ask. rewrite H.
  destruct (Dict.mem _ schema); [reflexivity|].
  destruct (find _ _); [reflexivity|].
  destruct (Dict.keys schema); reflexivity.
Qed.

(** C1, as the specification states it, fails on an empty schema: there the
    resolver has no key to fall back on and raises [IndexError]. *)
Lemma find_closest_metric_empty_schema :
  find_closest_metric (constant_world "cpu_usage" JNull) [] "What's the CPU usage?"
    initial_state
  = (Raise (Fault IndexOutOfRange),
     {| calls := [Asked (ClosestPrompt "What's the CPU usage?" [])];
        conversation_history := [] |}).
Proof. reflexivity. Qed.

(** C1 (amended): on a schema that is not empty, whatever the model
    answers, the resolver returns a key of the schema, and when neither the
    exact nor the substring step matches, that key is the first one in the
    schema's order. *)
Theorem find_closest_metric_in_schema
    (w : World) (schema : Schema) (user_query text : string) (st : State) :
  schema <> [] ->
  generate_content w (ClosestPrompt user_query (Dict.keys schema)) = Ok text ->
  exists metric,
    find_closest_metric w schema user_query st =
      (Ok metric, log_call (Asked (ClosestPrompt user_query (Dict.keys schema))) st)
    /\ In metric (Dict.keys schema)
    /\ (Dict.mem (PyStr.lower (PyStr.strip text)) schema = false ->
        (forall key, In key (Dict.keys schema) ->
                     PyStr.contains (PyStr.lower key) (PyStr.lower text) = false) ->
        Some metric = hd_error (Dict.keys schema)).
Proof.
  intros Hne Hans. rewrite (find_closest_metric_answered _ _ _ _ _ Hans).
  destruct (Dict.mem (PyStr.lower (PyStr.strip text)) schema) eqn:Hmem.
  - eexists. split; [reflexivity|]. split; [now apply mem_in_keys | discriminate].
  - destruct (find _ (Dict.keys schema)) as [metric|] eqn:Hfind.
    + exists metric. split; [reflexivity|].
      destruct (find_some _ _ Hfind) as [Hin Hsub].
      split; [exact Hin|]. intros _ Hno. rewrite (Hno _ Hin) in Hsub. discriminate.
    + destruct schema as [|[first info] rest]; [congruence|].
      exists first. simpl. split; [reflexivity|]. split; [now left | reflexivity].
Qed.

Lemma find_closest_metric_in_schema_witness :
  exists metric,
    find_closest_metric (constant_world "no idea" JNull) [("cpu_usage", cpu_info)]
      "What's the load?" initial_state
    = (Ok metric,
       log_call (Asked (ClosestPrompt "What's the load?" ["cpu_usage"])) initial_state)
    /\ In metric ["cpu_usage"]
    /\ (Dict.mem (PyStr.lower (PyStr.strip "no idea")) [("cpu_usage", cpu_info)] = false ->
        (forall key, In key ["cpu_usage"] ->
                     PyStr.contains (PyStr.lower key) (PyStr.lower "no idea") = false) ->
        Some metric = hd_error ["cpu_usage"]).
Proof.
  apply (find_closest_metric_in_schema (constant_world "no idea" JNull)
           [("cpu_usage", cpu_info)] "What's the load?" "no idea" initial_state).
  - discriminate.
  - reflexivity.
Defined.

(** C6: step (1) of [find_closest_metric] lowers the response and looks it
    up among the keys as they are spelled, so a key with a capital letter
    never matches exactly.  With the keys [CPU] and [CPU_Usage] and the
    answer [CPU_Usage] the exact match is missed and the substring step
    returns [CPU], where the stated order gives [CPU_Usage]. *)
Theorem find_closest_metric_misses_exact_match :
  fst (find_closest_metric (constant_world "CPU_Usage" JNull) cpu_schema
         "How busy is the CPU?" initial_state) = Ok "CPU"
  /\ spec_resolution cpu_schema "CPU_Usage" = Some "CPU_Usage".
Proof. split; reflexivity. Qed.

Lemma find_exact_lowercase (schema : Schema) (name : string) :
  (forall key, In key (Dict.keys schema) -> PyStr.lower key = key) ->
  find (fun key => String.eqb (PyStr.lower key) name) (Dict.keys schema)
  = if Dict.mem name schema then Some name else None.
Proof.
  unfold Dict.mem. induction schema as [|[key info] rest IH]; intros Hlow.
  - reflexivity.
  - simpl. rewrite (Hlow key (or_introl eq_refl)).
    destruct (String.eqb key name) eqn:E.
    + apply String.eqb_eq in E. now subst.
    + apply IH. intros k Hk. apply Hlow. now right.
Qed.

(** On a schema whose keys have no capital letter the resolver follows the
    stated order. *)
Lemma find_closest_metric_lowercase_keys
    (w : World) (schema : Schema) (user_query text : string) (st : State) :
  (forall key, In key (Dict.keys schema) -> PyStr.lower key = key) ->
  generate_content w (ClosestPrompt user_query (Dict.keys schema)) = Ok text ->
  fst (find_closest_metric w schema user_query st)
  = match spec_resolution schema text with
    | Some key => Ok key
    | None => Raise (Fault IndexOutOfRange)
    end.
Proof.
  intros Hlow Hans. rewrite (find_closest_metric_answered _ _ _ _ _ Hans).
  unfold spec_resolution. rewrite (find_exact_lowercase _ _ Hlow). simpl.
  destruct (Dict.mem _ schema); [reflexivity|].
  destruct (find _ (Dict.keys schema)); [reflexivity|].
  destruct (Dict.keys schema); reflexivity.
Qed.

(** ** The Answer Formatter *)

(** C10: with no result the formatter returns the fixed sentence and leaves
    the state as it was: no call to the language model is made. *)
Theorem format_answer_no_data
    (w : World) (schema : Schema) (intent : dict json) (st : State) :
  format_answer w schema intent [] st = (Ok no_data_message, st).
Proof. reflexivity. Qed.

(** ** The Query Synthesizer *)

Lemma eqb_empty_false (s : string) : s <> "" -> String.eqb s "" = false.
Proof. intros H. now apply String.eqb_neq. Qed.

(** [build_promql] on an intent whose metric is a non-empty schema key. *)
Lemma build_promql_known
    (schema : Schema) (intent : dict json) (name : string) (info : MetricInfo) :
  Py.get "metric" intent = JStr name ->
  name <> "" ->
  Dict.get name schema = Some info ->
  build_promql schema intent
  = Ok (wrap_aggregation (Py.get_default "aggregation" (JStr "avg") intent)
          (substitute_time_range (Py.get_default "time_range" (JStr "5m") intent)
             (info_example_query info))).
Proof.
  intros Hm Hne Hget. unfold build_promql. rewrite Hm. simpl.
  rewrite (eqb_empty_false _ Hne). simpl.
  unfold Dict.mem. rewrite Hget. reflexivity.
Qed.

(** C7: aggregation [max] and time range [1h] against the template
    [foo[5m]] give [max(foo[1h])]; and when the template lacks the token
    [[5m]] or the time range is [5m], the template is wrapped as it is. *)
Theorem build_promql_time_range
    (schema : Schema) (intent : dict json) (name : string) (info : MetricInfo) :
  Py.get "metric" intent = JStr name ->
  name <> "" ->
  Dict.get name schema = Some info ->
  (info_example_query info = "foo[5m]" ->
   Dict.get "aggregation" intent = Some (JStr "max") ->
   Dict.get "time_range" intent = Some (JStr "1h") ->
   build_promql schema intent = Ok "max(foo[1h])")
  /\ (PyStr.contains "[5m]" (info_example_query info) = false
      \/ Py.get_default "time_range" (JStr "5m") intent = JStr "5m" ->
      build_promql schema intent
      = Ok (wrap_aggregation (Py.get_default "aggregation" (JStr "avg") intent)
              (info_example_query info))).
Proof.
  intros Hm Hne Hget. rewrite (build_promql_known _ _ _ _ Hm Hne Hget). split.
  - intros Hq Hagg Htr. unfold Py.get_default. rewrite Hq, Hagg, Htr. reflexivity.
  - intros H. unfold substitute_time_range.
    destruct H as [H|H]; rewrite H; [reflexivity|].
    now rewrite andb_false_r.
Qed.

Lemma build_promql_time_range_witness :
  build_promql foo_schema
    [("metric", JStr "foo"); ("aggregation", JStr "max"); ("time_range", JStr "1h")]
  = Ok "max(foo[1h])".
Proof.
  refine (proj1 (build_promql_time_range foo_schema
                   [("metric", JStr "foo"); ("aggregation", JStr "max");
                    ("time_range", JStr "1h")]
                   "foo"
                   {| info_description := "Foo"; info_unit := None;
                      info_example_query := "foo[5m]" |} _ _ _) _ _ _);
    try reflexivity; discriminate.
Defined.

(** C8: an aggregation that is none of [max], [min], [sum] and [avg] leaves
    the query unwrapped: the template with its time range substituted, and
    no error. *)
Theorem build_promql_unknown_aggregation
    (schema : Schema) (intent : dict json) (name : string) (info : MetricInfo)
    (agg : json) :
  Py.get "metric" intent = JStr name ->
  name <> "" ->
  Dict.get name schema = Some info ->
  Dict.get "aggregation" intent = Some agg ->
  agg <> JStr "max" -> agg <> JStr "min" -> agg <> JStr "sum" -> agg <> JStr "avg" ->
  build_promql schema intent
  = Ok (substitute_time_range (Py.get_default "time_range" (JStr "5m") intent)
          (info_example_query info)).
Proof.
  intros Hm Hne Hget Hagg Hmax Hmin Hsum Havg.
  rewrite (build_promql_known _ _ _ _ Hm Hne Hget).
  unfold Py.get_default. rewrite Hagg. unfold wrap_aggregation.
  assert (Hno : forall s, agg <> JStr s -> Py.eq_str agg s = false).
  { intros s Hs. destruct agg; try reflexivity. simpl.
    apply String.eqb_neq. congruence. }
  now rewrite (Hno _ Hmax), (Hno _ Hmin), (Hno _ Hsum), (Hno _ Havg).
Qed.

Lemma build_promql_unknown_aggregation_witness :
  build_promql foo_schema
    [("metric", JStr "foo"); ("aggregation", JStr "p99"); ("time_range", JStr "1h")]
  = Ok "foo[1h]".
Proof.
  apply (build_promql_unknown_aggregation foo_schema
           [("metric", JStr "foo"); ("aggregation", JStr "p99");
            ("time_range", JStr "1h")]
           "foo"
           {| info_description := "Foo"; info_unit := None;
              info_example_query := "foo[5m]" |}
           (JStr "p99"));
    try reflexivity; discriminate.
Defined.

(** ** The Intent Extractor *)

(** The three outcomes of decoding exclude one another. *)
Lemma malformed_not_loaded (doc : string) :
  Json.malformed doc = true -> Json.loads doc = None.
Proof.
  unfold Json.malformed, Json.loads.
  now destruct (Json.scan doc) as [[v [|]]|].
Qed.

Lemma loads_cases (doc : string) :
  Json.malformed doc = true
  \/ Json.beyond doc = true
  \/ exists v, Json.loads doc = Some v.
Proof.
  unfold Json.malformed, Json.beyond, Json.loads.
  destruct (Json.scan doc) as [[v [|]]|]; eauto.
Qed.

(** The members of an object make an object. *)
Lemma object_members_dict
    (scan : string -> Json.scanned json) (fuel : nat) (acc : dict json)
    (ok : bool) (s : string) (v : json) (r : string) (okr : bool) :
  Json.object_members scan fuel acc ok s = Some (v, r, okr) ->
  exists d, v = JDict d.
Proof.
  revert acc ok s. induction fuel as [|f IH]; intros acc ok s; simpl; [discriminate|].
  destruct s as [|q s1]; [discriminate|].
  destruct (Ascii.eqb q dquote); [|discriminate].
  destruct (Json.scanstring s1) as [[[key r0] okk]|]; [|discriminate].
  destruct (Json.skip_ws r0) as [|c r1]; [discriminate|].
  destruct (Ascii.eqb c ":"); [|discriminate].
  destruct (scan (Json.skip_ws r1)) as [[[v0 r2] okv]|]; [|discriminate].
  destruct (Json.skip_ws r2) as [|c' r3]; [discriminate|].
  destruct (Ascii.eqb c' "}").
  - intros [= <- _ _]. eauto.
  - destruct (Ascii.eqb c' ","); [|discriminate]. apply IH.
Qed.

(** A document that opens with a brace decodes to an object or not at all. *)
Lemma scan_brace_dict (s : string) (v : json) (ok : bool) :
  Json.scan (String "{" s) = Some (v, ok) -> exists d, v = JDict d.
Proof.
  unfold Json.scan.
  change (Json.skip_ws (String "{" s)) with (String "{" s).
  destruct (Json.scan_once _ _) as [[[v0 r] ok0]|] eqn:E; [|discriminate].
  destruct (Json.skip_ws r); [|discriminate]. intros [= <- _].
  simpl in E. destruct (Json.skip_ws s) as [|c' r'] eqn:Ews; [discriminate|].
  destruct (Ascii.eqb c' "}").
  - injection E as <- _ _. eauto.
  - exact (object_members_dict _ _ _ _ _ _ _ _ E).
Qed.

Lemma scan_brace_cases (s : string) :
  Json.malformed (String "{" s) = true
  \/ Json.beyond (String "{" s) = true
  \/ exists intent, Json.loads (String "{" s) = Some (JDict intent).
Proof.
  unfold Json.malformed, Json.beyond, Json.loads.
  destruct (Json.scan (String "{" s)) as [[v [|]]|] eqn:E; auto.
  destruct (scan_brace_dict _ _ _ E) as [d ->]. eauto.
Qed.

(** [parse_user_query] once the model has answered. *)
Lemma parse_user_query_answered
    (w : World) (schema : Schema) (user_query text : string) (st : State) :
  generate_content w (ParsePrompt (metrics_info schema) user_query) = Ok text ->
  parse_user_query w schema user_query st =
  match PyStr.re_search_braces (PyStr.strip text) with
  | Some json_str =>
      match Json.loads json_str with
      | Some (JDict intent) => validate_intent w schema user_query intent
      | Some v => raise (Fault (NoAttribute v "get"))
      | None =>
          if Json.malformed json_str then raise (Fault (JSONSyntax json_str))
          else raise (beyond_model json_str)
      end
  | None => raise (Exc ValueError no_json_message)
  end (log_call (Asked (ParsePrompt (metrics_info schema) user_query)) st).
Proof.
  intros H. unfold parse_user_query, bind, ask. now rewrite H.
Qed.

(** [validate_intent] leaves alone an intent whose metric is null or a
    schema key, and makes no call. *)
Lemma validate_intent_kept
    (w : World) (schema : Schema) (user_query : string) (intent : dict json)
    (st : State) :
  Py.get "metric" intent = JNull
  \/ (exists name, Py.get "metric" intent = JStr name /\ Dict.mem name schema = true) ->
  validate_intent w schema user_query intent st = (Ok intent, st).
Proof.
  unfold validate_intent, bind, lift.
  intros [H | (name & H & Hmem)]; rewrite H; simpl; [reflexivity|].
  now rewrite Hmem.
Qed.

(** What [validate_intent] returns: the intent as it was, its metric null
    or a schema key, or the intent with the resolver's metric. *)
Lemma validate_intent_ok
    (w : World) (schema : Schema) (user_query : string)
    (intent result : dict json) (st st' : State) :
  validate_intent w schema user_query intent st = (Ok result, st') ->
  (result = intent /\ st' = st
   /\ (Py.get "metric" intent = JNull
       \/ exists name, Py.get "metric" intent = JStr name
                       /\ Dict.mem name schema = true))
  \/ (exists metric lowered,
        find_closest_metric w schema user_query st = (Ok metric, st')
        /\ PyOps.sub_float
             (Py.get_default "confidence" (JFloat 0.5)
                (Dict.set "metric" (JStr metric) intent)) 0.2 = Ok lowered
        /\ result = Dict.set "confidence" (JFloat (PyFloat.max 0.3 lowered))
                      (Dict.set "metric" (JStr metric) intent)).
Proof.
  unfold validate_intent, bind, lift.
  destruct (PyOps.contains_key (Py.get "metric" intent) schema) as [known|e] eqn:Hk;
    [|discriminate].
  destruct (negb known && negb (Py.is_none (Py.get "metric" intent))) eqn:Hc.
  - destruct (find_closest_metric w schema user_query st) as [[metric|e] st1];
      [|discriminate].
    destruct (PyOps.sub_float _ 0.2) as [lowered|e] eqn:Hs; [|discriminate].
    intros [= <- <-]. right. now exists metric, lowered.
  - intros [= <- <-]. left. split; [reflexivity|]. split; [reflexivity|].
    destruct (Py.get "metric" intent) as [| | | |name| |]; simpl in *;
      try (injection Hk as <-; discriminate); try discriminate.
    + now left.
    + right. exists name. split; [reflexivity|].
      injection Hk as <-. now rewrite andb_true_r in Hc; apply negb_false_iff in Hc.
Qed.

(** The resolver logs its one call, and what it returns is a schema key. *)
Lemma find_closest_metric_logs
    (w : World) (schema : Schema) (user_query : string) (st st' : State)
    (r : Result string) :
  find_closest_metric w schema user_query st = (r, st') ->
  st' = log_call (Asked (ClosestPrompt user_query (Dict.keys schema))) st.
Proof.
  destruct (generate_content w (ClosestPrompt user_query (Dict.keys schema)))
    as [text|e] eqn:H.
  - rewrite (find_closest_metric_answered _ _ _ _ _ H). now intros [= _ <-].
  - unfold find_closest_metric, bind, ask. rewrite H. now intros [= _ <-].
Qed.

Lemma find_closest_metric_ok
    (w : World) (schema : Schema) (user_query metric : string) (st st' : State) :
  find_closest_metric w schema user_query st = (Ok metric, st') ->
  In metric (Dict.keys schema).
Proof.
  destruct (generate_content w (ClosestPrompt user_query (Dict.keys schema)))
    as [text|e] eqn:H.
  - rewrite (find_closest_metric_answered _ _ _ _ _ H).
    destruct (Dict.mem (PyStr.lower (PyStr.strip text)) schema) eqn:Hmem.
    + intros [= <- _]. now apply mem_in_keys.
    + destruct (find _ (Dict.keys schema)) as [key|] eqn:Hfind.
      * intros [= <- _]. exact (proj1 (find_some _ _ Hfind)).
      * destruct (Dict.keys schema) as [|first rest]; [discriminate|].
        intros [= <- _]. now left.
  - unfold find_closest_metric, bind, ask. rewrite H. discriminate.
Qed.




(** An intent that [parse_user_query] returns has, for its metric, null or
    a schema key. *)
Lemma parse_user_query_metric
    (w : World) (schema : Schema) (user_query : string) (intent : dict json)
    (st st' : State) :
  parse_user_query w schema user_query st = (Ok intent, st') ->
  Py.get "metric" intent = JNull
  \/ exists name, Py.get "metric" intent = JStr name /\ Dict.mem name schema = true.
Proof.
  unfold parse_user_query, bind, ask.
  destruct (generate_content w _) as [text|e]; [|discriminate].
  destruct (PyStr.re_search_braces _) as [json_str|]; [|discriminate].
  destruct (Json.loads json_str) as [[| | | | | |decoded]|]; try discriminate;
    [|destruct (Json.malformed json_str); discriminate].
  intros H. apply validate_intent_ok in H.
  destruct H as [(-> & _ & H) | (metric & lowered & Hfind & _ & ->)]; [exact H|].
  right. exists metric. split.
  - unfold Py.get. rewrite get_set_other by discriminate.
    now rewrite get_set_same.
  - apply in_keys_mem. exact (find_closest_metric_ok _ _ _ _ _ _ Hfind).
Qed.

(** C2, as the specification states it, fails for a metric named by the
    empty string: a schema key and not null, and yet rejected. *)
Lemma build_promql_rejects_empty_key :
  build_promql [("", cpu_info)] [("metric", JStr "")]
  = Raise (Exc ValueError "Metric '' not in schema")
  /\ Py.is_none (Py.get "metric" [("metric", JStr "")]) = false
  /\ Dict.mem "" [("", cpu_info)] = true.
Proof. repeat split. Qed.

(** C2 (amended): an intent that passes the orchestrator's guard into
    [build_promql] has a metric that is a schema key, and synthesis
    succeeds on it; and [build_promql] raises its [ValueError] exactly when
    the metric is falsy (null, absent, empty, zero, false) or is a string,
    number or boolean that is not a schema key. *)
Theorem build_promql_metric_check :
  (forall (w : World) (schema : Schema) (user_query : string)
          (intent : dict json) (st st' : State),
      parse_user_query w schema user_query st = (Ok intent, st') ->
      Py.truthy (Py.get "metric" intent) = true ->
      exists name info promql,
        Py.get "metric" intent = JStr name
        /\ Dict.get name schema = Some info
        /\ build_promql schema intent = Ok promql)
  /\ (forall (schema : Schema) (intent : dict json),
         build_promql schema intent = Raise (unknown_metric (Py.get "metric" intent))
         <-> (Py.truthy (Py.get "metric" intent) = false
              \/ PyOps.contains_key (Py.get "metric" intent) schema = Ok false)).
Proof.
  split.
  - intros w schema user_query intent st st' Hparse Htruthy.
    destruct (parse_user_query_metric _ _ _ _ _ _ Hparse) as [H | (name & H & Hmem)].
    + rewrite H in Htruthy. discriminate.
    + unfold Dict.mem in Hmem.
      destruct (Dict.get name schema) as [info|] eqn:Hget; [|discriminate].
      exists name, info. eexists. split; [exact H|]. split; [exact Hget|].
      apply (build_promql_known schema intent name info H); [|exact Hget].
      intros ->. rewrite H in Htruthy. discriminate.
  - intros schema intent. unfold build_promql.
    destruct (Py.truthy (Py.get "metric" intent)) eqn:Ht; simpl.
    + destruct (PyOps.contains_key (Py.get "metric" intent) schema)
        as [[|]|e] eqn:Hk; simpl.
      * split; [|intros [H|H]; discriminate].
        destruct (Py.get "metric" intent); simpl in Hk; try discriminate.
        unfold PyOps.getitem, Dict.mem in *.
        destruct (Dict.get s schema); [discriminate|].
        injection Hk as Hk. discriminate.
      * split; [now right | reflexivity].
      * split; [|intros [H|H]; discriminate].
        destruct (Py.get "metric" intent); simpl in Hk; try discriminate;
          injection Hk as <-; discriminate.
    + split; [now left | reflexivity].
Qed.

Lemma build_promql_metric_check_witness :
  (exists name info promql,
      Py.get "metric" [("metric", JStr "cpu_usage")] = JStr name
      /\ Dict.get name demo_schema = Some info
      /\ build_promql demo_schema [("metric", JStr "cpu_usage")] = Ok promql)
  /\ build_promql demo_schema [("metric", JStr "memory")]
     = Raise (unknown_metric (JStr "memory")).
Proof.
  split.
  - apply (proj1 build_promql_metric_check
             (constant_world (dq "{'metric': 'cpu_usage'}") JNull) demo_schema
             "What's the CPU usage?" [("metric", JStr "cpu_usage")]
             initial_state
             (log_call (Asked (ParsePrompt (metrics_info demo_schema)
                                 "What's the CPU usage?")) initial_state));
      reflexivity.
  - apply (proj2 build_promql_metric_check demo_schema [("metric", JStr "memory")]).
    right. reflexivity.
Defined.

(** ** The orchestrator *)

(** C3: whatever stage raises -- extraction, synthesis, the backend or the
    formatter -- [process_query] returns the sentence made of the fixed
    prefix and the error's string; it returns a sentence in every case. *)
Theorem process_query_catches
    (w : World) (cfg : Config) (schema : Schema) (user_query : string)
    (datasource_id : Z) (st : State) :
  (forall e st1,
      parse_user_query w schema user_query st = (Raise e, st1) ->
      process_query w cfg schema user_query datasource_id st
      = (error_sentence w e, st1))
  /\ (forall intent st1,
         parse_user_query w schema user_query st = (Ok intent, st1) ->
         Py.truthy (Py.get "metric" intent) = true ->
         (forall e,
             build_promql schema intent = Raise e ->
             process_query w cfg schema user_query datasource_id st
             = (error_sentence w e, st1))
         /\ (forall promql,
                build_promql schema intent = Ok promql ->
                (forall e st2,
                    execute_promql w cfg promql datasource_id st1 = (Raise e, st2) ->
                    process_query w cfg schema user_query datasource_id st
                    = (error_sentence w e, st2))
                /\ (forall metrics st2 e st3,
                       execute_promql w cfg promql datasource_id st1
                       = (Ok metrics, st2) ->
                       format_answer w schema intent metrics st2 = (Raise e, st3) ->
                       process_query w cfg schema user_query datasource_id st
                       = (error_sentence w e, st3))))
  /\ (forall e st',
         process_query_try w cfg schema user_query datasource_id st = (Raise e, st') ->
         process_query w cfg schema user_query datasource_id st
         = (error_sentence w e, st'))
  /\ (exists sentence st',
         process_query w cfg schema user_query datasource_id st = (sentence, st')).
Proof.
  unfold process_query, process_query_try, bind, lift, error_sentence.
  split; [|split; [|split]].
  - intros e st1 ->. reflexivity.
  - intros intent st1 -> ->. simpl. split.
    + intros e ->. reflexivity.
    + intros promql ->. split.
      * intros e st2 ->. reflexivity.
      * intros metrics st2 e st3 -> ->. reflexivity.
  - intros e st' ->. reflexivity.
  - destruct (parse_user_query w schema user_query st) as [[intent|e] st1];
      [|eauto].
    destruct (negb (Py.truthy (Py.get "metric" intent))); [simpl; eauto|].
    destruct (build_promql schema intent) as [promql|e]; [|eauto].
    destruct (execute_promql w cfg promql datasource_id st1) as [[metrics|e] st2];
      [|eauto].
    destruct (format_answer w schema intent metrics st2) as [[answer|e] st3];
      simpl; eauto.
Qed.

Lemma process_query_catches_witness :
  process_query failing_world key_config demo_schema "What's the CPU usage?" 1
    initial_state
  = ("I encountered an error while processing your query: quota exceeded",
     {| calls := [Asked (ParsePrompt [("cpu_usage", "CPU usage", "%")]
                           "What's the CPU usage?")];
        conversation_history := [] |})
  /\ process_query (constant_world (dq "{'metric': 'cpu_usage'}") JNull)
       no_key_config demo_schema "What's the CPU usage?" 1 initial_state
     = ("I encountered an error while processing your query: Grafana API key not configured",
        {| calls := [Asked (ParsePrompt [("cpu_usage", "CPU usage", "%")]
                              "What's the CPU usage?")];
           conversation_history := [] |}).
Proof.
  split.
  - exact (proj1 (process_query_catches failing_world key_config demo_schema
                    "What's the CPU usage?" 1 initial_state)
             (Exc (ExternalError "ResourceExhausted") "quota exceeded")
             _ eq_refl).
  - exact (proj1
             (proj2
                (proj1 (proj2 (process_query_catches
                                 (constant_world (dq "{'metric': 'cpu_usage'}") JNull)
                                 no_key_config demo_schema
                                 "What's the CPU usage?" 1 initial_state))
                   [("metric", JStr "cpu_usage")] _ eq_refl eq_refl)
                "avg(rate(cpu[5m]))" eq_refl)
             (Exc ValueError "Grafana API key not configured") _ eq_refl).
Defined.

(** The end-to-end scenario of the specification: the intent names
    [cpu_usage] with the defaults, the query is [avg(rate(cpu[5m]))], and
    the backend value 0.42 of a metric in percent reaches the formatter's
    prompt as 42. *)
Example process_query_end_to_end :
  process_query
    (scripted_world
       (dq "{'metric': 'cpu_usage', 'aggregation': 'avg', 'time_range': '5m', 'intent': 'get current CPU usage', 'confidence': 0.9}")
       "cpu_usage" " CPU usage is at 42%. " one_series)
    key_config demo_schema "What's the CPU usage?" 1 initial_state
  = ("CPU usage is at 42%.",
     {| calls :=
          [Asked (AnswerPrompt (JStr "get current CPU usage") "CPU usage" "avg"
                    42 "%" (JStr "5m"));
           Fetched "http://localhost:3000/api/datasources/proxy/1/api/v1/query"
             "Bearer secret" "avg(rate(cpu[5m]))";
           Asked (ParsePrompt [("cpu_usage", "CPU usage", "%")]
                    "What's the CPU usage?")];
        conversation_history :=
          [{| turn_query := "What's the CPU usage?";
              turn_intent :=
                [("metric", JStr "cpu_usage"); ("aggregation", JStr "avg");
                 ("time_range", JStr "5m");
                 ("intent", JStr "get current CPU usage");
                 ("confidence", JFloat 0.9)];
              turn_promql := "avg(rate(cpu[5m]))";
              turn_results :=
                [{| result_labels := JDict [("job", JStr "node")];
                    result_timestamp := JInt 1700000000;
                    result_value := 0.42 |}];
              turn_answer := "CPU usage is at 42%.";
              turn_model_used := "gemma" |}] |}).
Proof. vm_compute. reflexivity. Qed.

(** C4, as the specification states it, fails: an answer whose metric is
    null, which the prompt itself asks for when no metric fits, passes the
    extractor unchanged and reaches the branch. *)
Lemma not_understood_branch_reached :
  process_query
    (constant_world
       (dq "{'metric': null, 'aggregation': 'avg', 'time_range': '5m', 'intent': 'small talk', 'confidence': 0.1}")
       JNull)
    key_config demo_schema "How are you today?" 1 initial_state
  = (not_understood_message,
     {| calls := [Asked (ParsePrompt [("cpu_usage", "CPU usage", "%")]
                           "How are you today?")];
        conversation_history := [] |}).
Proof. vm_compute. reflexivity. Qed.

(** C4 (amended): the branch is taken whenever the model's answer decodes
    to an intent whose metric is null or absent; the resolver, the
    synthesizer, the backend and the formatter are then not called. *)
Theorem process_query_not_understood
    (w : World) (cfg : Config) (schema : Schema)
    (user_query text json_str : string) (datasource_id : Z)
    (intent : dict json) (st : State) :
  generate_content w (ParsePrompt (metrics_info schema) user_query) = Ok text ->
  PyStr.re_search_braces (PyStr.strip text) = Some json_str ->
  Json.loads json_str = Some (JDict intent) ->
  Py.get "metric" intent = JNull ->
  process_query w cfg schema user_query datasource_id st
  = (not_understood_message,
     log_call (Asked (ParsePrompt (metrics_info schema) user_query)) st).
Proof.
  intros Hans Hspan Hload Hnull.
  unfold process_query, process_query_try, bind.
  rewrite (parse_user_query_answered _ _ _ _ _ Hans), Hspan, Hload.
  rewrite validate_intent_kept by now left.
  now rewrite Hnull.
Qed.

Lemma process_query_not_understood_witness :
  process_query (constant_world (dq "I am not sure: {'intent': 'small talk'}") JNull)
    key_config demo_schema "How are you today?" 1 initial_state
  = (not_understood_message,
     log_call (Asked (ParsePrompt (metrics_info demo_schema) "How are you today?"))
       initial_state).
Proof.
  apply (process_query_not_understood
           (constant_world (dq "I am not sure: {'intent': 'small talk'}") JNull)
           key_config demo_schema "How are you today?"
           (dq "I am not sure: {'intent': 'small talk'}")
           (dq "{'intent': 'small talk'}") 1
           [("intent", JStr "small talk")] initial_state);
    reflexivity.
Defined.

(** ** Locating the JSON object in the model's answer *)

(** C5, as the specification states it, fails: of two objects in the answer
    the first is well formed, but the match runs from the first opening
    brace to the last closing one, and decoding that span fails. *)
Lemma parse_user_query_spans_two_objects :
  first_json_object two_objects = Some (dq "{'metric': 'cpu_usage'}")
  /\ PyStr.re_search_braces (PyStr.strip two_objects) = Some two_objects
  /\ fst (parse_user_query (constant_world two_objects JNull) demo_schema
            "CPU or memory?" initial_state)
     = Raise (Fault (JSONSyntax two_objects)).
Proof. vm_compute. repeat split. Qed.

(** C5 (amended): the extractor takes the text from the first opening brace
    of the answer to its last closing brace, whatever surrounds them, and
    decodes that span.  It raises its "No valid JSON" [ValueError] exactly
    when the answer has no opening brace with a closing brace after it;
    with a span, it raises the decoding error when the span is not JSON and
    goes on to validate the decoded object when it is.  A span that decodes
    does so to an object; the one case left is a span whose text is beyond
    the model, of which nothing is said. *)
Theorem parse_user_query_brace_span
    (w : World) (schema : Schema) (user_query text : string) (st : State) :
  generate_content w (ParsePrompt (metrics_info schema) user_query) = Ok text ->
  ((~ exists a b c, text = a ++ String "{" (b ++ String "}" c)) ->
   parse_user_query w schema user_query st
   = (Raise (Exc ValueError no_json_message),
      log_call (Asked (ParsePrompt (metrics_info schema) user_query)) st))
  /\ (forall pre body post,
         text = pre ++ String "{" (body ++ String "}" post) ->
         PyStr.occurs "{" pre = false ->
         PyStr.occurs "}" post = false ->
         PyStr.re_search_braces (PyStr.strip text)
         = Some (String "{" (body ++ String "}" ""))
         /\ (Json.malformed (String "{" (body ++ String "}" "")) = true ->
             parse_user_query w schema user_query st
             = (Raise (Fault (JSONSyntax (String "{" (body ++ String "}" "")))),
                log_call (Asked (ParsePrompt (metrics_info schema) user_query)) st))
         /\ (forall intent,
                Json.loads (String "{" (body ++ String "}" "")) = Some (JDict intent) ->
                parse_user_query w schema user_query st
                = validate_intent w schema user_query intent
                    (log_call (Asked (ParsePrompt (metrics_info schema) user_query)) st))
         /\ (Json.malformed (String "{" (body ++ String "}" "")) = true
             \/ Json.beyond (String "{" (body ++ String "}" "")) = true
             \/ exists intent,
                  Json.loads (String "{" (body ++ String "}" "")) = Some (JDict intent)))
  /\ ((~ exists a b c, text = a ++ String "{" (b ++ String "}" c))
      \/ exists pre body post,
           text = pre ++ String "{" (body ++ String "}" post)
           /\ PyStr.occurs "{" pre = false
           /\ PyStr.occurs "}" post = false).
Proof.
  intros Hans. rewrite (parse_user_query_answered _ _ _ _ _ Hans).
  rewrite re_search_braces_strip. split; [|split].
  - intros Hno. apply re_search_braces_none in Hno. now rewrite Hno.
  - intros pre body post Htext Hpre Hpost.
    assert (H : PyStr.re_search_braces text = Some (String "{" (body ++ String "}" "")))
      by (apply re_search_braces_some; now exists pre, body, post).
    rewrite H. split; [reflexivity|]. split; [|split].
    + intros Hbad. rewrite (malformed_not_loaded _ Hbad), Hbad. reflexivity.
    + intros intent Hload. now rewrite Hload.
    + apply scan_brace_cases.
  - destruct (PyStr.re_search_braces text) as [s|] eqn:E.
    + right. apply re_search_braces_some in E.
      destruct E as (pre & body & post & H1 & _ & H2 & H3).
      now exists pre, body, post.
    + left. now apply re_search_braces_none.
Qed.

Lemma parse_user_query_brace_span_witness :
  parse_user_query (constant_world (dq "Sure! {'metric': null} Anything else?") JNull)
    demo_schema "How are you?" initial_state
  = (Ok [("metric", JNull)],
     log_call (Asked (ParsePrompt (metrics_info demo_schema) "How are you?"))
       initial_state)
  /\ parse_user_query (constant_world "I cannot tell." JNull)
       demo_schema "How are you?" initial_state
     = (Raise (Exc ValueError no_json_message),
        log_call (Asked (ParsePrompt (metrics_info demo_schema) "How are you?"))
          initial_state)
  /\ parse_user_query (constant_world (dq "Here: {'metric': } done") JNull)
       demo_schema "How are you?" initial_state
     = (Raise (Fault (JSONSyntax (dq "{'metric': }"))),
        log_call (Asked (ParsePrompt (metrics_info demo_schema) "How are you?"))
          initial_state).
Proof.
  split; [|split].
  - exact (proj1 (proj2 (proj2
             (proj1 (proj2 (parse_user_query_brace_span
                              (constant_world
                                 (dq "Sure! {'metric': null} Anything else?") JNull)
                              demo_schema "How are you?"
                              (dq "Sure! {'metric': null} Anything else?")
                              initial_state eq_refl))
                "Sure! " (dq "'metric': null") " Anything else?"
                eq_refl eq_refl eq_refl)))
             [("metric", JNull)] eq_refl).
  - apply (proj1 (parse_user_query_brace_span
                    (constant_world "I cannot tell." JNull)
                    demo_schema "How are you?" "I cannot tell."
                    initial_state eq_refl)).
    apply re_search_braces_none. reflexivity.
  - exact (proj1 (proj2
             (proj1 (proj2 (parse_user_query_brace_span
                              (constant_world (dq "Here: {'metric': } done") JNull)
                              demo_schema "How are you?"
                              (dq "Here: {'metric': } done")
                              initial_state eq_refl))
                "Here: " (dq "'metric': ") " done"
                eq_refl eq_refl eq_refl))
             eq_refl).
Defined.

(** * Further properties of the pipeline *)

(** ** What each stage does to the state *)

(** The extractor makes one call, or two when it turns to the resolver, and
    leaves the history alone. *)
Lemma validate_intent_effect
    (w : World) (schema : Schema) (user_query : string) (intent : dict json)
    (st st' : State) (r : Result (dict json)) :
  validate_intent w schema user_query intent st = (r, st') ->
  st' = st
  \/ st' = log_call (Asked (ClosestPrompt user_query (Dict.keys schema))) st.
Proof.
  unfold validate_intent, bind, lift.
  destruct (PyOps.contains_key _ schema) as [known|e]; [|intros [= _ <-]; now left].
  destruct (negb known && _); [|intros [= _ <-]; now left].
  destruct (find_closest_metric w schema user_query st) as [[metric|e] st1] eqn:Hf;
    pose proof (find_closest_metric_logs _ _ _ _ _ _ Hf) as ->.
  - destruct (PyOps.sub_float _ _); intros [= _ <-]; now right.
  - intros [= _ <-]. now right.
Qed.

Lemma parse_user_query_effect
    (w : World) (schema : Schema) (user_query : string)
    (st st' : State) (r : Result (dict json)) :
  parse_user_query w schema user_query st = (r, st') ->
  st' = log_call (Asked (ParsePrompt (metrics_info schema) user_query)) st
  \/ st' = log_call (Asked (ClosestPrompt user_query (Dict.keys schema)))
             (log_call (Asked (ParsePrompt (metrics_info schema) user_query)) st).
Proof.
  unfold parse_user_query, bind, ask.
  destruct (generate_content w _) as [text|e]; [|intros [= _ <-]; now left].
  destruct (PyStr.re_search_braces _) as [json_str|]; [|intros [= _ <-]; now left].
  destruct (Json.loads json_str) as [[| | | | | |intent]|];
    try (intros [= _ <-]; now left);
    [|destruct (Json.malformed json_str); intros [= _ <-]; now left].
  intros H. apply validate_intent_effect in H. destruct H as [-> | ->]; tauto.
Qed.

(** The backend stage makes no request without a key, and one with it. *)
Lemma execute_promql_effect
    (w : World) (cfg : Config) (promql : string) (datasource_id : Z)
    (st st' : State) (r : Result (list QueryResult)) :
  execute_promql w cfg promql datasource_id st = (r, st') ->
  (st' = st /\ r = Raise (Exc ValueError "Grafana API key not configured")
   /\ (GRAFANA_API_KEY cfg = None \/ GRAFANA_API_KEY cfg = Some ""))
  \/ exists key,
       GRAFANA_API_KEY cfg = Some key /\ key <> ""
       /\ st' = log_call
                  (Fetched (GRAFANA_URL cfg ++ "/api/datasources/proxy/"
                            ++ PyStr.of_Z datasource_id ++ "/api/v1/query")
                     ("Bearer " ++ key) promql) st.
Proof.
  unfold execute_promql, raise.
  destruct (GRAFANA_API_KEY cfg) as [key|]; [|intros [= <- <-]; left; tauto].
  destruct (String.eqb key "") eqn:E.
  - apply String.eqb_eq in E. subst key. intros [= <- <-]. left. tauto.
  - apply String.eqb_neq in E. intros [= _ <-]. right. now exists key.
Qed.

(** The formatter makes at most one call. *)
Lemma format_answer_effect
    (w : World) (schema : Schema) (intent : dict json)
    (metrics : list QueryResult) (st st' : State) (r : Result string) :
  format_answer w schema intent metrics st = (r, st') ->
  st' = st \/ exists p, st' = log_call (Asked p) st.
Proof.
  unfold format_answer, bind, lift, ask, ret.
  destruct metrics as [|first rest]; [intros [= _ <-]; now left|].
  destruct (PyOps.getitem intent (JStr "metric")); [|intros [= _ <-]; now left].
  destruct (PyOps.getitem schema _); [|intros [= _ <-]; now left].
  destruct (PyOps.capitalize _); [|intros [= _ <-]; now left].
  destruct (PyOps.getitem intent (JStr "intent")); [|intros [= _ <-]; now left].
  destruct (generate_content w _); intros [= _ <-]; right; eauto.
Qed.

(** The calls a run has put in front of the log, read off the goal. *)
Ltac give_new_calls :=
  simpl;
  lazymatch goal with
  | |- exists new, ?a :: ?b :: ?c :: ?d :: calls ?st = _ /\ _ => exists [a; b; c; d]
  | |- exists new, ?a :: ?b :: ?c :: calls ?st = _ /\ _ => exists [a; b; c]
  | |- exists new, ?a :: ?b :: calls ?st = _ /\ _ => exists [a; b]
  | |- exists new, ?a :: calls ?st = _ /\ _ => exists [a]
  | |- exists new, calls ?st = _ /\ _ => exists []
  end;
  simpl; split; [reflexivity | lia].

(** X1: a run of [process_query] adds its calls in front of the log, and
    they are at most three calls to the language model and at most one
    request to the backend. *)
Theorem process_query_call_budget
    (w : World) (cfg : Config) (schema : Schema) (user_query : string)
    (datasource_id : Z) (st : State) :
  exists new,
    calls (snd (process_query w cfg schema user_query datasource_id st))
    = (new ++ calls st)%list
    /\ (List.length (filter is_asked new) <= 3)%nat
    /\ (List.length (filter is_fetched new) <= 1)%nat.
Proof.
  unfold process_query, process_query_try, bind, lift, append_turn, ret.
  destruct (parse_user_query w schema user_query st) as [[intent|e] st1] eqn:Hp;
    apply parse_user_query_effect in Hp.
  2: { destruct Hp as [-> | ->]; give_new_calls. }
  destruct (negb (Py.truthy (Py.get "metric" intent))).
  { destruct Hp as [-> | ->]; give_new_calls. }
  destruct (build_promql schema intent) as [promql|e].
  2: { destruct Hp as [-> | ->]; give_new_calls. }
  destruct (execute_promql w cfg promql datasource_id st1) as [[metrics|e] st2] eqn:He;
    apply execute_promql_effect in He.
  2: { destruct He as [(-> & _) | (key & _ & _ & ->)];
         destruct Hp as [-> | ->]; give_new_calls. }
  destruct (format_answer w schema intent metrics st2) as [[answer|e] st3] eqn:Hf;
    apply format_answer_effect in Hf;
    destruct Hf as [-> | (p & ->)];
    destruct He as [(-> & _) | (key & _ & _ & ->)];
    destruct Hp as [-> | ->]; give_new_calls.
Qed.


(** ** The queries sent to the backend *)





(** X4: the Grafana key is looked at only after extraction and synthesis:
    without a key (unset or empty), every query whose metric was understood
    ends in the sentence about the missing key, in the state the extractor
    left -- the language model has been asked, the backend has not, and
    nothing is added to the history. *)
Theorem process_query_without_key
    (w : World) (cfg : Config) (schema : Schema) (user_query : string)
    (datasource_id : Z) (intent : dict json) (st st1 : State) :
  GRAFANA_API_KEY cfg = None \/ GRAFANA_API_KEY cfg = Some "" ->
  parse_user_query w schema user_query st = (Ok intent, st1) ->
  Py.truthy (Py.get "metric" intent) = true ->
  process_query w cfg schema user_query datasource_id st
  = (error_prefix ++ "Grafana API key not configured", st1).
Proof.
  intros Hkey Hp Ht.
  destruct (parse_user_query_metric _ _ _ _ _ _ Hp) as [H | (name & H & Hmem)];
    [rewrite H in Ht; discriminate|].
  unfold Dict.mem in Hmem.
  destruct (Dict.get name schema) as [info|] eqn:Hget; [|discriminate].
  assert (Hne : name <> "") by (intros ->; rewrite H in Ht; discriminate).
  unfold process_query, process_query_try, bind, lift.
  rewrite Hp, Ht. simpl.
  rewrite (build_promql_known schema intent name info H Hne Hget).
  unfold execute_promql, raise.
  destruct Hkey as [-> | ->]; reflexivity.
Qed.

Lemma process_query_without_key_witness :
  process_query (constant_world (dq "{'metric': 'cpu_usage'}") JNull)
    no_key_config demo_schema "What's the CPU usage?" 1 initial_state
  = (error_prefix ++ "Grafana API key not configured",
     log_call (Asked (ParsePrompt (metrics_info demo_schema) "What's the CPU usage?"))
       initial_state).
Proof.
  apply (process_query_without_key
           (constant_world (dq "{'metric': 'cpu_usage'}") JNull)
           no_key_config demo_schema "What's the CPU usage?" 1
           [("metric", JStr "cpu_usage")]);
    [left; reflexivity | reflexivity | reflexivity].
Defined.

(** ** The Backend Executor *)

Lemma collect_results_sound
    (series : list json) (rs : list QueryResult) :
  vector_results series rs ->
  forall acc, collect_results series acc = Ok (acc ++ rs)%list.
Proof.
  induction 1 as [|series r rest rs Hread _ IH|series rest rs Hskip _ IH];
    intros acc.
  - simpl. now rewrite app_nil_r.
  - destruct Hread as (d & sample & -> & Ht & Hu & Hf & Hl).
    cbn [collect_results PyOps.get bindR]. rewrite Ht, Hu. cbn [bindR snd fst].
    rewrite Hf. cbn [bindR]. rewrite IH, <- app_assoc. simpl.
    rewrite <- Hl. now destruct r.
  - destruct Hskip as (d & -> & Ht).
    cbn [collect_results PyOps.get bindR]. rewrite Ht. apply IH.
Qed.

Lemma collect_results_complete (series : list json) :
  forall acc out,
    collect_results series acc = Ok out ->
    exists rs, vector_results series rs /\ out = (acc ++ rs)%list.
Proof.
  induction series as [|result rest IH]; intros acc out.
  - simpl. intros [= <-]. exists []. split; [constructor | now rewrite app_nil_r].
  - cbn [collect_results].
    destruct result as [| | | | | |d]; try discriminate.
    cbn [PyOps.get bindR].
    destruct (Py.truthy (Py.get_default "value" (JList []) d)) eqn:Ht.
    + destruct (PyOps.unpack2 _) as [[ts sample]|e] eqn:Hu; [|discriminate].
      cbn [bindR snd fst].
      destruct (PyOps.to_float sample) as [v|e] eqn:Hf; [|discriminate].
      cbn [bindR]. intros H. destruct (IH _ _ H) as (rs & Hrs & ->).
      exists ({| result_labels := Py.get_default "metric" (JDict []) d;
                 result_timestamp := ts;
                 result_value := v |} :: rs).
      split; [|now rewrite <- app_assoc].
      apply vector_read; [|exact Hrs].
      exists d, sample. simpl. tauto.
    + intros H. destruct (IH _ _ H) as (rs & Hrs & ->).
      exists rs. split; [|reflexivity].
      apply vector_skip; [|exact Hrs]. now exists d.
Qed.

(** X5: the loop of [execute_promql] succeeds exactly on a list of series
    that are objects whose value, when truthy, unpacks into a timestamp and
    a sample that [float] accepts; it then returns one result for each
    series with a truthy value, in the order of the response, and passes
    over the others. *)
Theorem collect_results_exact (series : list json) (out : list QueryResult) :
  collect_results series [] = Ok out <-> vector_results series out.
Proof.
  split.
  - intros H. destruct (collect_results_complete _ _ _ H) as (rs & Hrs & ->).
    exact Hrs.
  - intros H. exact (collect_results_sound _ _ H []).
Qed.

Lemma collect_results_exact_witness :
  collect_results
    [JDict [("metric", JDict [("job", JStr "node")]);
            ("value", JList [JInt 1700000000; JStr "0.42"])];
     JDict [("metric", JDict [("job", JStr "idle")])]]
    []
  = Ok [{| result_labels := JDict [("job", JStr "node")];
           result_timestamp := JInt 1700000000;
           result_value := 0.42 |}].
Proof.
  apply (proj2 (collect_results_exact _ _)).
  apply vector_read.
  - exists [("metric", JDict [("job", JStr "node")]);
            ("value", JList [JInt 1700000000; JStr "0.42"])], (JStr "0.42").
    repeat split.
  - apply vector_skip; [|constructor].
    exists [("metric", JDict [("job", JStr "idle")])]. split; reflexivity.
Defined.

(** X6: with a key configured, a response of status 2xx whose body is an
    object makes [execute_promql] return the results of its
    [data.result] series after one request; a body without ["data"], or
    data without ["result"], counts as no series and gives no result. *)
Theorem execute_promql_reads_response
    (w : World) (cfg : Config) (promql key : string) (datasource_id : Z)
    (st : State) (response : Response) (body : dict json)
    (series : list json) (rs : list QueryResult) :
  GRAFANA_API_KEY cfg = Some key ->
  key <> "" ->
  requests_get w
    (GRAFANA_URL cfg ++ "/api/datasources/proxy/" ++ PyStr.of_Z datasource_id
     ++ "/api/v1/query")
    ("Bearer " ++ key) promql = Ok response ->
  raise_for_status response = Ok tt ->
  json_body response = Ok (JDict body) ->
  PyOps.get (Py.get_default "data" (JDict []) body) "result" (JList [])
  = Ok (JList series) ->
  vector_results series rs ->
  execute_promql w cfg promql datasource_id st
  = (Ok rs,
     log_call
       (Fetched (GRAFANA_URL cfg ++ "/api/datasources/proxy/"
                 ++ PyStr.of_Z datasource_id ++ "/api/v1/query")
          ("Bearer " ++ key) promql) st).
Proof.
  intros Hkey Hne Hget Hstatus Hbody Hseries Hrs.
  unfold execute_promql. rewrite Hkey, (eqb_empty_false _ Hne).
  rewrite Hget. cbn [bindR]. rewrite Hstatus, Hbody. cbn [bindR PyOps.get].
  rewrite Hseries. cbn [bindR PyOps.iter].
  now rewrite (collect_results_sound _ _ Hrs []).
Qed.

Lemma execute_promql_reads_response_witness :
  execute_promql (constant_world "" (JDict [("status", JStr "success")]))
    key_config "up" 1 initial_state
  = (Ok [],
     log_call
       (Fetched "http://localhost:3000/api/datasources/proxy/1/api/v1/query"
          "Bearer secret" "up") initial_state).
Proof.
  apply (execute_promql_reads_response
           (constant_world "" (JDict [("status", JStr "success")]))
           key_config "up" "secret" 1 initial_state
           {| raise_for_status := Ok tt;
              json_body := Ok (JDict [("status", JStr "success")]) |}
           [("status", JStr "success")] [] []);
    try reflexivity; [discriminate | constructor].
Defined.

(** ** Trimmed text *)

Lemma rstrip_idempotent (s : string) :
  PyStr.rstrip (PyStr.rstrip s) = PyStr.rstrip s.
Proof.
  induction s as [|a s IH]; [reflexivity|].
  rewrite rstrip_cons.
  destruct (PyStr.rstrip s) as [|b r] eqn:E.
  - destruct (PyStr.isspace a) eqn:Ea; [reflexivity|].
    simpl. now rewrite Ea.
  - rewrite rstrip_cons, IH. reflexivity.
Qed.

Lemma lstrip_starts_clean (s : string) : starts_clean (PyStr.lstrip s).
Proof.
  induction s as [|a s IH]; simpl; [exact I|].
  destruct (PyStr.isspace a) eqn:Ea; [exact IH | exact Ea].
Qed.

Lemma rstrip_starts_clean (s : string) :
  starts_clean s -> starts_clean (PyStr.rstrip s).
Proof.
  destruct s as [|a s]; [trivial|]. intros Ha. rewrite rstrip_cons.
  simpl in Ha. destruct (PyStr.rstrip s); [rewrite Ha|]; exact Ha.
Qed.

Lemma lstrip_clean (s : string) : starts_clean s -> PyStr.lstrip s = s.
Proof.
  destruct s as [|a s]; [reflexivity|]. simpl. now intros ->.
Qed.

Lemma strip_idempotent (s : string) :
  PyStr.strip (PyStr.strip s) = PyStr.strip s.
Proof.
  unfold PyStr.strip.
  rewrite (lstrip_clean (PyStr.rstrip (PyStr.lstrip s))).
  - apply rstrip_idempotent.
  - apply rstrip_starts_clean, lstrip_starts_clean.
Qed.

(** ** The Answer Formatter, with results *)

(** X7: an answer that [format_answer] builds from results is the model's
    text trimmed: it has no white space at either end, and trimming it
    again changes nothing. *)
Theorem format_answer_trimmed
    (w : World) (schema : Schema) (intent : dict json)
    (first : QueryResult) (rest : list QueryResult) (answer : string)
    (st st' : State) :
  format_answer w schema intent (first :: rest) st = (Ok answer, st') ->
  PyStr.lstrip answer = answer
  /\ PyStr.rstrip answer = answer
  /\ PyStr.strip answer = answer.
Proof.
  unfold format_answer, bind, lift, ask, ret.
  destruct (PyOps.getitem intent (JStr "metric")); [|discriminate].
  destruct (PyOps.getitem schema _); [|discriminate].
  destruct (PyOps.capitalize _); [|discriminate].
  destruct (PyOps.getitem intent (JStr "intent")); [|discriminate].
  destruct (generate_content w _) as [text|e]; [|discriminate].
  intros [= <- _]. split; [|split].
  - apply lstrip_clean, rstrip_starts_clean, lstrip_starts_clean.
  - apply rstrip_idempotent.
  - apply strip_idempotent.
Qed.

Lemma format_answer_trimmed_witness :
  PyStr.lstrip "CPU usage is at 42%." = "CPU usage is at 42%."
  /\ PyStr.rstrip "CPU usage is at 42%." = "CPU usage is at 42%."
  /\ PyStr.strip "CPU usage is at 42%." = "CPU usage is at 42%.".
Proof.
  apply (format_answer_trimmed
           (constant_world "  CPU usage is at 42%.  " JNull) demo_schema
           full_intent one_result [] "CPU usage is at 42%."
           initial_state
           (log_call (Asked (AnswerPrompt (JStr "get current CPU usage")
                               "CPU usage" "avg" 42 "%" (JStr "5m")))
              initial_state)).
  vm_compute. reflexivity.
Defined.

(** X8: results in hand, the formatter still needs the fields the model was
    asked for: when the intent has no ["intent"] entry, or its aggregation
    is not a string, [format_answer] raises before it asks the model. *)
Theorem format_answer_needs_fields
    (w : World) (schema : Schema) (intent : dict json)
    (first : QueryResult) (rest : list QueryResult) (st : State) :
  Dict.get "intent" intent = None
  \/ (exists v, Dict.get "aggregation" intent = Some v
                /\ forall s, v <> JStr s) ->
  exists e, format_answer w schema intent (first :: rest) st = (Raise e, st).
Proof.
  intros H. unfold format_answer, bind, lift, ask, ret.
  destruct (PyOps.getitem intent (JStr "metric")); [|eauto].
  destruct (PyOps.getitem schema _); [|eauto].
  destruct H as [H | (v & H & Hv)].
  - destruct (PyOps.capitalize _); [|eauto].
    unfold PyOps.getitem. rewrite H. eauto.
  - unfold Py.get_default. rewrite H.
    destruct v; simpl; eauto. now destruct (Hv s).
Qed.

Lemma format_answer_needs_fields_witness :
  exists e,
    format_answer (constant_world "fine" JNull) demo_schema
      [("metric", JStr "cpu_usage"); ("aggregation", JNull)]
      [one_result] initial_state
    = (Raise e, initial_state).
Proof.
  apply (format_answer_needs_fields (constant_world "fine" JNull) demo_schema
           [("metric", JStr "cpu_usage"); ("aggregation", JNull)]
           one_result [] initial_state).
  left. reflexivity.
Defined.

(** ** The Intent Extractor, its two ways out *)

(** Python's [max] with 0.3 first never returns less than 0.3, not even on
    a NaN. *)
Lemma max_floor (x : float) : PrimFloat.leb 0.3 (PyFloat.max 0.3 x) = true.
Proof.
  unfold PyFloat.max. destruct (PrimFloat.ltb 0.3 x) eqn:E; [|reflexivity].
  rewrite leb_spec. rewrite ltb_spec in E.
  unfold SFltb in E. unfold SFleb.
  destruct (SFcompare (Prim2SF 0.3) (Prim2SF x)) as [[| |]|];
    try discriminate; reflexivity.
Qed.

(** X9: when the extractor has turned to the resolver and returns an
    intent, the confidence of that intent is a float that is at least 0.3,
    whatever confidence the model gave. *)
Theorem parse_user_query_confidence_floor
    (w : World) (schema : Schema) (user_query : string)
    (intent : dict json) (st st' : State) :
  parse_user_query w schema user_query st = (Ok intent, st') ->
  In (Asked (ClosestPrompt user_query (Dict.keys schema))) (calls st') ->
  ~ In (Asked (ClosestPrompt user_query (Dict.keys schema))) (calls st) ->
  exists c,
    Dict.get "confidence" intent = Some (JFloat c)
    /\ PrimFloat.leb 0.3 c = true.
Proof.
  unfold parse_user_query, bind, ask.
  destruct (generate_content w _) as [text|e]; [|discriminate].
  destruct (PyStr.re_search_braces _) as [json_str|]; [|discriminate].
  destruct (Json.loads json_str) as [[| | | | | |decoded]|]; try discriminate;
    [|destruct (Json.malformed json_str); discriminate].
  intros H Hin Hnot. apply validate_intent_ok in H.
  destruct H as [(_ & -> & _) | (metric & lowered & _ & _ & ->)].
  - simpl in Hin. destruct Hin as [Hin|Hin]; [discriminate | contradiction].
  - exists (PyFloat.max 0.3 lowered). split; [apply get_set_same | apply max_floor].
Qed.

Lemma parse_user_query_confidence_floor_witness :
  exists c,
    Dict.get "confidence" [("metric", JStr "cpu_usage"); ("confidence", JFloat 0.3)]
    = Some (JFloat c)
    /\ PrimFloat.leb 0.3 c = true.
Proof.
  apply (parse_user_query_confidence_floor
           (constant_world (dq "{'metric': 'processor', 'confidence': 0.1}") JNull)
           demo_schema "How busy is the processor?"
           [("metric", JStr "cpu_usage"); ("confidence", JFloat 0.3)]
           initial_state
           (log_call (Asked (ClosestPrompt "How busy is the processor?" ["cpu_usage"]))
              (log_call (Asked (ParsePrompt (metrics_info demo_schema)
                                  "How busy is the processor?"))
                 initial_state))).
  - reflexivity.
  - left. reflexivity.
  - intros [].
Defined.

(** X10: an intent whose metric is a schema key is returned as decoded --
    every field as the model gave it, confidence included -- after the one
    call of the extractor. *)
Theorem parse_user_query_keeps_known_metric
    (w : World) (schema : Schema) (user_query text json_str name : string)
    (intent : dict json) (st : State) :
  generate_content w (ParsePrompt (metrics_info schema) user_query) = Ok text ->
  PyStr.re_search_braces text = Some json_str ->
  Json.loads json_str = Some (JDict intent) ->
  Dict.get "metric" intent = Some (JStr name) ->
  In name (Dict.keys schema) ->
  parse_user_query w schema user_query st
  = (Ok intent,
     log_call (Asked (ParsePrompt (metrics_info schema) user_query)) st).
Proof.
  intros Hans Hspan Hload Hmetric Hin.
  rewrite (parse_user_query_answered _ _ _ _ _ Hans).
  rewrite re_search_braces_strip, Hspan, Hload.
  apply validate_intent_kept. right. exists name.
  unfold Py.get. rewrite Hmetric. split; [reflexivity | now apply in_keys_mem].
Qed.

Lemma parse_user_query_keeps_known_metric_witness :
  parse_user_query
    (constant_world (dq " {'metric': 'cpu_usage', 'confidence': 7} ") JNull)
    demo_schema "What's the CPU usage?" initial_state
  = (Ok [("metric", JStr "cpu_usage"); ("confidence", JInt 7)],
     log_call (Asked (ParsePrompt (metrics_info demo_schema) "What's the CPU usage?"))
       initial_state).
Proof.
  apply (parse_user_query_keeps_known_metric
           (constant_world (dq " {'metric': 'cpu_usage', 'confidence': 7} ") JNull)
           demo_schema "What's the CPU usage?"
           (dq " {'metric': 'cpu_usage', 'confidence': 7} ")
           (dq "{'metric': 'cpu_usage', 'confidence': 7}") "cpu_usage"
           [("metric", JStr "cpu_usage"); ("confidence", JInt 7)]
           initial_state);
    try reflexivity.
  left. reflexivity.
Defined.

(** ** The Query Synthesizer and [str.replace] *)

(** Replacing a text that does not occur changes nothing. *)
Lemma replace_from_absent (old new s : string) :
  PyStr.contains old s = false -> PyStr.replace_from old new 0 s = s.
Proof.
  induction s as [|c s IH]; [reflexivity|].
  cbn [PyStr.contains PyStr.replace_from].
  intros H. apply orb_false_elim in H as [Hp Hc].
  rewrite Hp, (IH Hc). reflexivity.
Qed.

Lemma replace_from_skip (old new : string) (skipped s : string) :
  PyStr.replace_from old new (String.length skipped) (skipped ++ s)
  = PyStr.replace_from old new 0 s.
Proof.
  induction skipped as [|c skipped IH]; [reflexivity|].
  simpl. destruct s; exact IH.
Qed.

Lemma prefix_other_head (c d : ascii) (old s : string) :
  c <> d -> prefix (String c old) (String d s) = false.
Proof.
  intros H. simpl. destruct (ascii_dec c d); [contradiction | reflexivity].
Qed.

Lemma prefix_append (s t : string) : prefix s (s ++ t) = true.
Proof.
  induction s as [|c s IH]; simpl; [now destruct t|].
  destruct (ascii_dec c c); [exact IH | contradiction].
Qed.

Lemma contains_middle (old pre post : string) :
  PyStr.contains old (pre ++ old ++ post) = true.
Proof.
  induction pre as [|c pre IH].
  - simpl append. destruct (old ++ post) eqn:E; cbn [PyStr.contains];
      rewrite <- E, prefix_append; reflexivity.
  - change (String c pre ++ old ++ post) with (String c (pre ++ old ++ post)).
    cbn [PyStr.contains]. rewrite IH. apply orb_true_r.
Qed.

(** X11: the test ["[5m]" in base_query] of [build_promql] decides nothing:
    the time-range step returns the template when the time range is
    ["5m"], and otherwise the template with every [[5m]] replaced, which
    is the template itself when it has none. *)
Theorem substitute_time_range_is_replace (time_range : json) (base_query : string) :
  substitute_time_range time_range base_query
  = if Py.eq_str time_range "5m" then base_query
    else PyStr.replace "[5m]" ("[" ++ Py.str time_range ++ "]") base_query.
Proof.
  unfold substitute_time_range.
  destruct (Py.eq_str time_range "5m"); [now rewrite andb_false_r|].
  rewrite andb_true_r.
  destruct (PyStr.contains "[5m]" base_query) eqn:E; [reflexivity|].
  symmetry. exact (replace_from_absent "[5m]" _ _ E).
Qed.

(** X12: a time range other than ["5m"] is put into the query as the model
    wrote it, unchecked: for a template [pre[5m]post] with no bracket
    before the token and no further token after it, the query is
    [pre[time_range]post] inside the aggregation. *)
Theorem build_promql_splices_time_range
    (schema : Schema) (intent : dict json) (name pre post time_range : string)
    (info : MetricInfo) :
  Py.get "metric" intent = JStr name ->
  name <> "" ->
  Dict.get name schema = Some info ->
  info_example_query info = pre ++ "[5m]" ++ post ->
  PyStr.occurs "[" pre = false ->
  PyStr.contains "[5m]" post = false ->
  Dict.get "time_range" intent = Some (JStr time_range) ->
  time_range <> "5m" ->
  build_promql schema intent
  = Ok (wrap_aggregation (Py.get_default "aggregation" (JStr "avg") intent)
          (pre ++ "[" ++ time_range ++ "]" ++ post)).
Proof.
  intros Hm Hne Hget Hq Hpre Hpost Htr Hneq.
  rewrite (build_promql_known schema intent name info Hm Hne Hget).
  f_equal. f_equal. unfold substitute_time_range.
  unfold Py.get_default. rewrite Htr. simpl Py.eq_str.
  apply String.eqb_neq in Hneq. rewrite Hneq. rewrite Hq, contains_middle.
  simpl Py.str. cbn [andb negb]. unfold PyStr.replace.
  clear - Hpre Hpost. induction pre as [|c pre IH].
  - change ("" ++ "[5m]" ++ post) with (String "[" ("5m]" ++ post)).
    cbn [PyStr.replace_from]. cbn [prefix].
    change (String.length "[5m]" - 1)%nat with (String.length "5m]").
    rewrite replace_from_skip, (replace_from_absent _ _ _ Hpost).
    simpl. replace (prefix "" post) with true by (now destruct post).
    now rewrite append_assoc.
  - simpl in Hpre. apply orb_false_elim in Hpre as [Hc Hpre].
    change (String c pre ++ "[5m]" ++ post) with (String c (pre ++ "[5m]" ++ post)).
    cbn [PyStr.replace_from].
    rewrite prefix_other_head
      by (intros <-; now rewrite Ascii.eqb_refl in Hc).
    now rewrite (IH Hpre).
Qed.

Lemma build_promql_splices_time_range_witness :
  build_promql demo_schema
    [("metric", JStr "cpu_usage"); ("time_range", JStr "90s")]
  = Ok "avg(rate(cpu[90s]))".
Proof.
  apply (build_promql_splices_time_range demo_schema
           [("metric", JStr "cpu_usage"); ("time_range", JStr "90s")]
           "cpu_usage" "rate(cpu" ")" "90s" cpu_info);
    try reflexivity; discriminate.
Defined.

(** ** Start-up *)

(** The loop over the model names: it stops at the first model the SDK
    constructs, having tried the ones before it, in order. *)
Lemma try_models_spec (sw : StartupWorld) (names : list string) :
  forall log,
    match try_models sw names log with
    | (inr model, log') =>
        exists before after,
          names = (before ++ model :: after)%list
          /\ (forall n, In n before -> exists e, GenerativeModel sw n = Raise e)
          /\ GenerativeModel sw model = Ok tt
          /\ log' = (rev (map TriedModel (before ++ [model])) ++ log)%list
    | (inl e, log') =>
        e = AllModelsFailed
        /\ (forall n, In n names -> exists e, GenerativeModel sw n = Raise e)
        /\ log' = (rev (map TriedModel names) ++ log)%list
    end.
Proof.
  induction names as [|name rest IH]; intros log.
  - simpl. split; [reflexivity|]. split; [intros n []|reflexivity].
  - cbn [try_models]. destruct (GenerativeModel sw name) as [[]|e] eqn:E.
    + exists [], rest. split; [reflexivity|]. split; [intros n []|].
      split; [exact E | reflexivity].
    + specialize (IH (TriedModel name :: log)).
      destruct (try_models sw rest (TriedModel name :: log)) as [[err|model] log'].
      * destruct IH as (-> & Hall & ->). split; [reflexivity|]. split.
        -- intros n [<-|Hn]; [eauto | exact (Hall n Hn)].
        -- simpl. now rewrite <- app_assoc.
      * destruct IH as (before & after & -> & Hall & Hok & ->).
        exists (name :: before), after. split; [reflexivity|]. split; [|split].
        -- intros n [<-|Hn]; [eauto | exact (Hall n Hn)].
        -- exact Hok.
        -- simpl. now rewrite <- !app_assoc.
Qed.

Lemma setup_gemma_model_logs (sw : StartupWorld) (log : StartupLog) :
  match setup_gemma_model sw log with
  | (inr _, _) => True
  | (inl e, log') =>
      e = AllModelsFailed
      /\ (forall n, In n gemma_models -> exists e, GenerativeModel sw n = Raise e)
      /\ log' = (rev (map TriedModel gemma_models) ++ log)%list
  end.
Proof.
  pose proof (try_models_spec sw gemma_models log) as H.
  unfold setup_gemma_model.
  destruct (try_models sw gemma_models log) as [[e|model] log']; [exact H | exact I].
Qed.

(** X13: [setup_gemma_model] takes the first of its four models that the
    SDK constructs, after trying the ones before it, in the order 27b, 12b,
    4b, 1b, and tries none after it; it fails exactly when none of the
    four can be constructed, having tried them all. *)
Theorem setup_gemma_model_first_success (sw : StartupWorld) (log : StartupLog) :
  match setup_gemma_model sw log with
  | (inr model, log') =>
      exists before after,
        gemma_models = (before ++ model :: after)%list
        /\ (forall n, In n before -> exists e, GenerativeModel sw n = Raise e)
        /\ GenerativeModel sw model = Ok tt
        /\ log' = (rev (map TriedModel (before ++ [model])) ++ log)%list
  | (inl e, log') =>
      e = AllModelsFailed
      /\ (forall n, In n gemma_models -> exists e, GenerativeModel sw n = Raise e)
      /\ log' = (rev (map TriedModel gemma_models) ++ log)%list
  end.
Proof. exact (try_models_spec sw gemma_models log). Qed.

(** X14: for a schema file whose text does not decode to a value beyond
    the model (no escape above [\u00ff] in a well-formed document),
    [load_schema] succeeds exactly when the file can be read, its text is
    a JSON object with a ["metrics"] entry, and that entry is a string, a
    list or an object, the values that have a length: the entry itself is
    not checked any further, and a number, a boolean or null is refused
    only because the log line takes its length. *)
Theorem load_schema_succeeds_iff
    (sw : StartupWorld) (schema_file : string) (log : StartupLog) (schema : json) :
  (forall doc, read_text sw schema_file = Ok doc -> Json.beyond doc = false) ->
  (fst (load_schema sw schema_file log) = inr schema
   <-> exists doc top,
         read_text sw schema_file = Ok doc
         /\ Json.loads doc = Some (JDict top)
         /\ Dict.get "metrics" top = Some schema
         /\ ((exists s, schema = JStr s)
             \/ (exists l, schema = JList l)
             \/ (exists d, schema = JDict d)))
  /\ (forall doc, fst (load_schema sw schema_file log) <> inl (SchemaBeyondModel doc)).
Proof.
  intros Hin. unfold load_schema. simpl. split; [split|].
  - destruct (read_text sw schema_file) as [doc|e]; [|discriminate].
    destruct (Json.loads doc) as [[| | | | | |top]|] eqn:Hl; try discriminate;
      [|destruct (Json.malformed doc); discriminate].
    destruct (Dict.get "metrics" top) as [found|] eqn:Hg; [|discriminate].
    destruct found; simpl; try discriminate; intros [= <-];
      exists doc, top; eauto 8.
  - intros (doc & top & -> & -> & -> & [(s & ->) | [(l & ->) | (d & ->)]]);
      reflexivity.
  - intros doc'. destruct (read_text sw schema_file) as [doc|e]; [|discriminate].
    specialize (Hin doc eq_refl).
    destruct (loads_cases doc) as [Hbad | [Hb | (v & Hv)]].
    + rewrite (malformed_not_loaded _ Hbad), Hbad. discriminate.
    + congruence.
    + rewrite Hv. destruct v as [| | | | | |top]; try discriminate.
      destruct (Dict.get "metrics" top) as [found|]; [|discriminate].
      destruct (py_len found); discriminate.
Qed.

(** X15: the agent is constructed schema first: when [load_schema] fails,
    no model is tried and the one attempt logged is the opening of the
    file; when it succeeds, the agent holds the loaded ["metrics"] value,
    the model [setup_gemma_model] chose and an empty history, or the
    construction fails because no model could be set up. *)
Theorem init_agent_schema_first
    (sw : StartupWorld) (schema_file : string) (log : StartupLog) :
  match init_agent sw schema_file log with
  | (inr created, log') =>
      fst (load_schema sw schema_file log) = inr (self_schema created)
      /\ setup_gemma_model sw (OpenedFile schema_file :: log)
         = (inr (self_model created), log')
      /\ self_conversation_history created = []
  | (inl e, log') =>
      (fst (load_schema sw schema_file log) = inl e
       /\ log' = OpenedFile schema_file :: log)
      \/ (e = AllModelsFailed
          /\ (exists schema, fst (load_schema sw schema_file log) = inr schema)
          /\ log' = (rev (map TriedModel gemma_models)
                     ++ OpenedFile schema_file :: log)%list)
  end.
Proof.
  unfold init_agent.
  destruct (load_schema sw schema_file log) as [[e|schema] log1] eqn:Hl.
  - left. split; [reflexivity|].
    unfold load_schema in Hl. now injection Hl as _ <-.
  - assert (log1 = OpenedFile schema_file :: log) as ->
      by (unfold load_schema in Hl; now injection Hl as _ <-).
    pose proof (setup_gemma_model_logs sw (OpenedFile schema_file :: log)) as Hs.
    destruct (setup_gemma_model sw (OpenedFile schema_file :: log))
      as [[e|model] log2].
    + right. destruct Hs as (-> & _ & ->).
      split; [reflexivity|]. split; [now exists schema | reflexivity].
    + simpl. tauto.
Qed.

Lemma load_schema_succeeds_iff_witness :
  (forall doc, read_text demo_startup "schema.json" = Ok doc ->
               Json.beyond doc = false)
  /\ fst (load_schema demo_startup "schema.json" [])
     = inr (JDict [("cpu_usage",
                    JDict [("description", JStr "CPU usage"); ("unit", JStr "%");
                           ("example_query", JStr "rate(cpu[5m])")])]).
Proof.
  assert (Hin : forall doc, read_text demo_startup "schema.json" = Ok doc ->
                            Json.beyond doc = false)
    by (intros doc [= <-]; reflexivity).
  split; [exact Hin|].
  apply (proj2 (proj1 (load_schema_succeeds_iff demo_startup "schema.json" []
                         (JDict [("cpu_usage",
                                  JDict [("description", JStr "CPU usage");
                                         ("unit", JStr "%");
                                         ("example_query", JStr "rate(cpu[5m])")])])
                         Hin))).
  exists schema_text,
    [("metrics",
      JDict [("cpu_usage",
              JDict [("description", JStr "CPU usage"); ("unit", JStr "%");
                     ("example_query", JStr "rate(cpu[5m])")])])].
  repeat split. right. right. eexists. reflexivity.
Defined.

(** ** The front ends *)

(** X16: the status of [handle_query] depends on the request and on whether
    the agent exists, never on how the pipeline fared: 400 for a body whose
    query, a string, is blank or absent; 200 for any other string query
    when the agent exists; 500 otherwise.  The state is touched only in
    the 200 case. *)
Theorem handle_query_status
    (w : World) (cfg : Config) (agent : option Schema) (body : Result json)
    (st : State) :
  snd (fst (handle_query w cfg agent body st)) = expected_status agent body
  /\ (expected_status agent body <> 200%Z ->
      snd (handle_query w cfg agent body st) = st).
Proof.
  unfold handle_query, handle_query_try, bind, lift, ret, expected_status.
  destruct body as [[| | | | | |d]|e]; simpl; try (split; [reflexivity | tauto]).
  destruct (Py.get_default "query" (JStr "") d) as [| | | |q| |]; simpl;
    try (split; [reflexivity | tauto]).
  destruct (String.eqb (PyStr.strip q) ""); simpl; [split; [reflexivity | tauto]|].
  destruct agent as [schema|]; simpl; [|split; [reflexivity | tauto]].
  destruct (process_query w cfg schema (PyStr.strip q) 1 st). simpl.
  split; [reflexivity | congruence].
Qed.

Lemma handle_query_status_witness :
  snd (handle_query failing_world key_config None
         (Ok (JDict [("query", JStr "   ")])) initial_state)
  = initial_state.
Proof.
  apply (proj2 (handle_query_status failing_world key_config None
                  (Ok (JDict [("query", JStr "   ")])) initial_state)).
  discriminate.
Defined.

(** X17: for a string query that is not blank and an agent that exists,
    [handle_query] answers 200 with the trimmed query and the sentence of
    [process_query] -- also when the pipeline failed: then the answer is
    the error sentence, and the status is still 200. *)
Theorem handle_query_answers
    (w : World) (cfg : Config) (schema : Schema) (d : dict json) (q : string)
    (st : State) :
  Py.get_default "query" (JStr "") d = JStr q ->
  PyStr.strip q <> "" ->
  handle_query w cfg (Some schema) (Ok (JDict d)) st
  = (([("query", JStr (PyStr.strip q));
       ("answer", JStr (fst (process_query w cfg schema (PyStr.strip q) 1 st)))],
      200%Z),
     snd (process_query w cfg schema (PyStr.strip q) 1 st))
  /\ (forall e st',
         process_query_try w cfg schema (PyStr.strip q) 1 st = (Raise e, st') ->
         handle_query w cfg (Some schema) (Ok (JDict d)) st
         = (([("query", JStr (PyStr.strip q));
              ("answer", JStr (error_prefix ++ str_exn w e))],
             200%Z),
            st')).
Proof.
  intros Hq Hne.
  unfold handle_query, handle_query_try, bind, lift, ret. simpl.
  rewrite Hq. simpl. rewrite (eqb_empty_false _ Hne).
  split.
  - now destruct (process_query w cfg schema (PyStr.strip q) 1 st).
  - intros e st' He. unfold process_query. now rewrite He.
Qed.

Lemma handle_query_answers_witness :
  handle_query failing_world key_config (Some demo_schema)
    (Ok (JDict [("query", JStr " What's the CPU usage? ")])) initial_state
  = (([("query", JStr "What's the CPU usage?");
       ("answer", JStr (error_prefix ++ "quota exceeded"))],
      200%Z),
     log_call (Asked (ParsePrompt (metrics_info demo_schema) "What's the CPU usage?"))
       initial_state).
Proof.
  refine (proj2 (handle_query_answers failing_world key_config demo_schema
                   [("query", JStr " What's the CPU usage? ")]
                   " What's the CPU usage? " initial_state eq_refl _)
            (Exc (ExternalError "ResourceExhausted") "quota exceeded") _ eq_refl).
  discriminate.
Defined.

(** X18: [handle_query] reads nothing of the request but its query, and
    that trimmed: two bodies whose queries agree once trimmed are answered
    alike, whatever else they hold. *)
Theorem handle_query_trims
    (w : World) (cfg : Config) (agent : option Schema) (d d' : dict json)
    (q q' : string) (st : State) :
  Py.get_default "query" (JStr "") d = JStr q ->
  Py.get_default "query" (JStr "") d' = JStr q' ->
  PyStr.strip q = PyStr.strip q' ->
  handle_query w cfg agent (Ok (JDict d)) st
  = handle_query w cfg agent (Ok (JDict d')) st.
Proof.
  intros Hq Hq' Heq.
  unfold handle_query, handle_query_try, bind, lift, ret. simpl.
  rewrite Hq, Hq'. simpl. now rewrite Heq.
Qed.

Lemma handle_query_trims_witness :
  handle_query failing_world key_config (Some demo_schema)
    (Ok (JDict [("query", JStr "  How busy is the CPU?  "); ("user", JStr "ann")]))
    initial_state
  = handle_query failing_world key_config (Some demo_schema)
      (Ok (JDict [("query", JStr "How busy is the CPU?")])) initial_state.
Proof.
  apply (handle_query_trims failing_world key_config (Some demo_schema)
           [("query", JStr "  How busy is the CPU?  "); ("user", JStr "ann")]
           [("query", JStr "How busy is the CPU?")]
           "  How busy is the CPU?  " "How busy is the CPU?" initial_state);
    reflexivity.
Defined.

(** X19: a request that is not a JSON object, or whose query is not a
    string, is answered 500 with "Error: " and the error's text, and
    nothing is called. *)
Theorem handle_query_rejects_malformed
    (w : World) (cfg : Config) (agent : option Schema) (body : Result json)
    (st : State) :
  (forall d, body <> Ok (JDict d))
  \/ (exists d, body = Ok (JDict d)
                /\ forall q, Py.get_default "query" (JStr "") d <> JStr q) ->
  exists e,
    handle_query w cfg agent body st
    = (([("error", JStr ("Error: " ++ str_exn w e))], 500%Z), st).
Proof.
  unfold handle_query, handle_query_try, bind, lift, ret.
  intros [H | (d & -> & H)].
  - destruct body as [v|e]; [|now exists e].
    destruct v as [| | | | | |d];
      try (eexists (Fault (NoAttribute _ "get")); reflexivity).
    now destruct (H d).
  - simpl. destruct (Py.get_default "query" (JStr "") d) as [| | | |q| |] eqn:E;
      try (eexists (Fault (NoAttribute _ "strip")); reflexivity).
    now destruct (H q).
Qed.

Lemma handle_query_rejects_malformed_witness :
  exists e,
    handle_query failing_world key_config (Some demo_schema)
      (Ok (JDict [("query", JInt 42)])) initial_state
    = (([("error", JStr ("Error: " ++ str_exn failing_world e))], 500%Z),
       initial_state).
Proof.
  apply (handle_query_rejects_malformed failing_world key_config (Some demo_schema)
           (Ok (JDict [("query", JInt 42)])) initial_state).
  right. exists [("query", JInt 42)]. split; [reflexivity | discriminate].
Defined.

(** ** The interactive loop of [main] *)

(** X20: the loop ends at the first line that is a quit word: what follows
    it is never read. *)
Theorem interactive_loop_stops_at_quit
    (w : World) (cfg : Config) (schema : Schema)
    (before after : list string) (line : string) (st : State) :
  is_quit_word (PyStr.strip line) = true ->
  interactive_loop w cfg schema (before ++ line :: after) st
  = interactive_loop w cfg schema (before ++ [line]) st.
Proof.
  intros Hq. revert st. induction before as [|first before IH]; intros st.
  - simpl. now rewrite Hq.
  - simpl. destruct (is_quit_word (PyStr.strip first)); [reflexivity|].
    destruct (String.eqb (PyStr.strip first) ""); [apply IH|].
    destruct (process_query w cfg schema (PyStr.strip first) 1 st) as [answer st1].
    now rewrite IH.
Qed.

Lemma interactive_loop_stops_at_quit_witness :
  interactive_loop failing_world key_config demo_schema
    ["  "; " QUIT "; "What's the CPU usage?"] initial_state
  = interactive_loop failing_world key_config demo_schema
      ["  "; " QUIT "] initial_state.
Proof.
  apply (interactive_loop_stops_at_quit failing_world key_config demo_schema
           ["  "] ["What's the CPU usage?"] " QUIT " initial_state).
  reflexivity.
Defined.

(** X21: a blank line costs nothing: the loop goes on as if the line had
    not been entered. *)
Theorem interactive_loop_skips_blank
    (w : World) (cfg : Config) (schema : Schema)
    (before after : list string) (line : string) (st : State) :
  PyStr.strip line = "" ->
  interactive_loop w cfg schema (before ++ line :: after) st
  = interactive_loop w cfg schema (before ++ after) st.
Proof.
  intros Hb. revert st. induction before as [|first before IH]; intros st.
  - simpl. now rewrite Hb.
  - simpl. destruct (is_quit_word (PyStr.strip first)); [reflexivity|].
    destruct (String.eqb (PyStr.strip first) ""); [apply IH|].
    destruct (process_query w cfg schema (PyStr.strip first) 1 st) as [answer st1].
    now rewrite IH.
Qed.

Lemma interactive_loop_skips_blank_witness :
  interactive_loop failing_world key_config demo_schema
    ["hello"; "   "; "quit"] initial_state
  = interactive_loop failing_world key_config demo_schema
      ["hello"; "quit"] initial_state.
Proof.
  apply (interactive_loop_skips_blank failing_world key_config demo_schema
           ["hello"] ["quit"] "   " initial_state).
  reflexivity.
Defined.

(** ** The resolver and letter case *)

Lemma isspace_lower_char (c : ascii) :
  PyStr.isspace (PyStr.lower_char c) = PyStr.isspace c.
Proof.
  destruct c as [b0 b1 b2 b3 b4 b5 b6 b7].
  destruct b0, b1, b2, b3, b4, b5, b6, b7; reflexivity.
Qed.

Lemma lower_lstrip (s : string) :
  PyStr.lower (PyStr.lstrip s) = PyStr.lstrip (PyStr.lower s).
Proof.
  induction s as [|a s IH]; [reflexivity|].
  simpl. rewrite isspace_lower_char.
  destruct (PyStr.isspace a); [exact IH | reflexivity].
Qed.

Lemma lower_rstrip (s : string) :
  PyStr.lower (PyStr.rstrip s) = PyStr.rstrip (PyStr.lower s).
Proof.
  induction s as [|a s IH]; [reflexivity|].
  change (PyStr.lower (String a s)) with (String (PyStr.lower_char a) (PyStr.lower s)).
  rewrite !rstrip_cons, <- IH, isspace_lower_char.
  destruct (PyStr.rstrip s) as [|b r]; simpl; [|reflexivity].
  now destruct (PyStr.isspace a).
Qed.

Lemma lower_strip (s : string) :
  PyStr.lower (PyStr.strip s) = PyStr.strip (PyStr.lower s).
Proof.
  unfold PyStr.strip. now rewrite lower_rstrip, lower_lstrip.
Qed.

(** X22: the resolver reads the model's answer without regard to letter
    case: two answers that are the same once lowered resolve to the same
    metric, or fail alike. *)
Theorem find_closest_metric_ignores_case
    (w w' : World) (schema : Schema) (user_query text text' : string)
    (st st' : State) :
  generate_content w (ClosestPrompt user_query (Dict.keys schema)) = Ok text ->
  generate_content w' (ClosestPrompt user_query (Dict.keys schema)) = Ok text' ->
  PyStr.lower text = PyStr.lower text' ->
  fst (find_closest_metric w schema user_query st)
  = fst (find_closest_metric w' schema user_query st').
Proof.
  intros H H' Heq.
  rewrite (find_closest_metric_answered _ _ _ _ _ H).
  rewrite (find_closest_metric_answered _ _ _ _ _ H').
  cbn [fst]. now rewrite !lower_strip, Heq.
Qed.

Lemma find_closest_metric_ignores_case_witness :
  fst (find_closest_metric (constant_world " CPU_USAGE " JNull) demo_schema
         "How busy is the CPU?" initial_state)
  = fst (find_closest_metric (constant_world " cpu_usage " JNull) demo_schema
           "How busy is the CPU?" initial_state).
Proof.
  apply (find_closest_metric_ignores_case
           (constant_world " CPU_USAGE " JNull) (constant_world " cpu_usage " JNull)
           demo_schema "How busy is the CPU?" " CPU_USAGE " " cpu_usage ");
    reflexivity.
Defined.

(** ** Validation, once more *)

(** X23: what the extractor's validation returns, it would return again:
    the intent it yields has a metric that is null or a schema key, so a
    second validation leaves it as it is and makes no call. *)
Theorem validate_intent_stable
    (w : World) (schema : Schema) (user_query : string)
    (intent result : dict json) (st st' st2 : State) :
  validate_intent w schema user_query intent st = (Ok result, st') ->
  validate_intent w schema user_query result st2 = (Ok result, st2).
Proof.
  intros H. apply validate_intent_ok in H.
  destruct H as [(-> & _ & H) | (metric & lowered & Hfind & _ & ->)].
  - now apply validate_intent_kept.
  - apply validate_intent_kept. right. exists metric. split.
    + unfold Py.get. rewrite get_set_other by discriminate.
      now rewrite get_set_same.
    + apply in_keys_mem. exact (find_closest_metric_ok _ _ _ _ _ _ Hfind).
Qed.

Lemma validate_intent_stable_witness :
  validate_intent (constant_world "cpu" JNull) demo_schema "How busy?"
    [("metric", JStr "cpu_usage"); ("confidence", JFloat 0.7)] initial_state
  = (Ok [("metric", JStr "cpu_usage"); ("confidence", JFloat 0.7)], initial_state).
Proof.
  apply (validate_intent_stable (constant_world "cpu" JNull) demo_schema "How busy?"
           [("metric", JStr "processor"); ("confidence", JFloat 0.9)]
           [("metric", JStr "cpu_usage"); ("confidence", JFloat 0.7)]
           initial_state
           (log_call (Asked (ClosestPrompt "How busy?" ["cpu_usage"])) initial_state)).
  reflexivity.
Defined.
